(** * mcp-language-server: symbol resolution and cross-reference rendering

    A shallow embedding of [internal/tools/definition.go] (ReadDefinition),
    of the references tool (FindReferences) and of [internal/lsp/clangd.go]
    (the clangd warm-up), together with the properties of these functions
    that the specification states.

    Conventions:
    - Go strings are byte strings: [string] (a list of 8-bit [ascii]).
    - Go's [int] is [Z]; [uint32] is a [Z] whose additions wrap modulo 2^32.
    - A Go [error] is represented by its message, so [%v] of an error and
      [err.Error()] are the message itself.
    - The language server, the file system, the environment and the logger
      are external and stateful; they are operations on a world [W] that
      every function threads through, in the order of the Go statements.
    - [time.Sleep] and the cancellation context have no effect on the values
      computed and are left out. *)

From Stdlib Require Import ZArith Lia Ascii.
From stdpp Require Import base tactics option list strings pretty sorting gmap.

(** ** Go values *)

Definition error := string.

(** A Go result [(T, error)]: the error is nil or not. *)
Inductive result (A : Type) : Type :=
| Ok (a : A)
| Err (err : error).
Arguments Ok {A} a.
Arguments Err {A} err.

(** The line feed, Go's ["\n"]. *)
Definition LF : string := String (Ascii.ascii_of_nat 10) "".

(** ** The parts of Go's standard library that the sources call *)
Module Go.

(** [len(s)], the number of bytes. *)
Definition len (s : string) : nat := String.length s.

(** [s[n:]] *)
Fixpoint from (n : nat) (s : string) : string :=
  match n, s with
  | O, _ => s
  | S n', String _ s' => from n' s'
  | S _, EmptyString => EmptyString
  end.

(** [s[:n]] *)
Fixpoint upto (n : nat) (s : string) : string :=
  match n, s with
  | O, _ => EmptyString
  | S n', String a s' => String a (upto n' s')
  | S _, EmptyString => EmptyString
  end.

(** [strings.HasPrefix]: [len(s) >= len(prefix) && s[:len(prefix)] == prefix] *)
Definition HasPrefix (s prefix : string) : bool :=
  (len prefix <=? len s)%nat && String.eqb (upto (len prefix) s) prefix.

(** [strings.HasSuffix]:
    [len(s) >= len(suffix) && s[len(s)-len(suffix):] == suffix] *)
Definition HasSuffix (s suffix : string) : bool :=
  (len suffix <=? len s)%nat && String.eqb (from (len s - len suffix) s) suffix.

(** [strings.TrimPrefix] *)
Definition TrimPrefix (s prefix : string) : string :=
  if HasPrefix s prefix then from (len prefix) s else s.

(** [strings.Join] *)
Definition Join (elems : list string) (sep : string) : string :=
  String.concat sep elems.

(** [strings.Split(s, "\n")]: the fields between line feeds; a string
    without line feed, also the empty one, is a single field. *)
Fixpoint SplitLines (s : string) : list string :=
  match s with
  | EmptyString => [EmptyString]
  | String a s' =>
      if Ascii.eqb a (Ascii.ascii_of_nat 10) then EmptyString :: SplitLines s'
      else match SplitLines s' with
           | [] => [String a EmptyString]
           | l :: ls => String a l :: ls
           end
  end.

(** *** strconv.Atoi *)

Definition digit (a : ascii) : option Z :=
  let n := Z.of_nat (Ascii.nat_of_ascii a) in
  if decide (48 ≤ n ≤ 57)%Z then Some (n - 48)%Z else None.

(** The digit loop [n = n*10 + int(ch)]; a byte that is no digit is a
    syntax error. *)
Fixpoint digits (n : Z) (s : string) : option Z :=
  match s with
  | EmptyString => Some n
  | String a s' =>
      match digit a with
      | Some d => digits (n * 10 + d) s'
      | None => None
      end
  end.

Definition minInt : Z := (- 2 ^ 63)%Z.
Definition maxInt : Z := (2 ^ 63 - 1)%Z.

(** [strconv.Atoi] on a 64-bit platform: an optional sign, then at least
    one decimal digit and nothing else; [None] is the syntax or range
    error. *)
Definition Atoi (s : string) : option Z :=
  let signed (neg : bool) (ds : string) : option Z :=
    match ds with
    | EmptyString => None
    | _ =>
        match digits 0 ds with
        | Some n =>
            let v := if neg then (- n)%Z else n in
            if decide (minInt ≤ v ≤ maxInt)%Z then Some v else None
        | None => None
        end
    end in
  match s with
  | EmptyString => None
  | String a ds =>
      if Ascii.eqb a "-"%char then signed true ds
      else if Ascii.eqb a "+"%char then signed false ds
      else signed false s
  end.

(** *** fmt.Sprintf *)

(** The operands that the sources pass to a format. *)
Inductive Arg :=
| AStr (s : string)
| AInt (n : Z).

(** The fragment of the format language that is interpreted here: plain
    bytes, [%%], [%s] on a string and [%d] on an integer, with exactly as
    many operands as verbs. Outside of it the result is [None]. *)
Fixpoint sprintf (format : string) (args : list Arg) : option string :=
  match format with
  | EmptyString => match args with [] => Some EmptyString | _ => None end
  | String a rest =>
      if Ascii.eqb a "%"%char then
        match rest with
        | EmptyString => None
        | String verb rest' =>
            if Ascii.eqb verb "%"%char then String "%"%char <$> sprintf rest' args
            else if Ascii.eqb verb "s"%char then
              match args with
              | AStr s :: args' => String.app s <$> sprintf rest' args'
              | _ => None
              end
            else if Ascii.eqb verb "d"%char then
              match args with
              | AInt n :: args' => String.app (pretty n) <$> sprintf rest' args'
              | _ => None
              end
            else None
        end
      else String a <$> sprintf rest args
  end.

(** *** path/filepath *)

Definition isSlash (a : ascii) : bool := Ascii.eqb a "/"%char.

Fixpoint dropSlashes (l : list ascii) : list ascii :=
  match l with
  | a :: l' => if isSlash a then dropSlashes l' else l
  | [] => []
  end.

Fixpoint untilSlash (l : list ascii) : list ascii :=
  match l with
  | a :: l' => if isSlash a then [] else a :: untilSlash l'
  | [] => []
  end.

(** [filepath.Base] (Unix): the last element of the path, after removing
    trailing slashes; ["."] for the empty path and ["/"] for a path of
    slashes only. *)
Definition Base (path : string) : string :=
  match path with
  | EmptyString => "."
  | _ =>
      let stripped := dropSlashes (rev (String.list_ascii_of_string path)) in
      match String.string_of_list_ascii (rev (untilSlash stripped)) with
      | EmptyString => "/"
      | last => last
      end
  end.

(** The values a [filepath.WalkFunc] returns besides nil. *)
Inductive WalkErr :=
| SkipDir
| SkipAll
| WalkError (err : error).

Record FileInfo := { IsDir : bool }.

(** What [filepath.Walk] finds below a path: a file, a directory whose
    entries can be read or not, or a name on which [Lstat] fails. The
    entries of a directory are in the order of [readDirNames] (sorted). *)
#[warnings="-register-all"]
Inductive FsNode :=
| FsFile (name : string)
| FsDir (name : string) (entries : result (list FsNode))
| FsBroken (name : string) (err : error).

Definition nodeName (n : FsNode) : string :=
  match n with
  | FsFile name | FsDir name _ | FsBroken name _ => name
  end.

(** Whether the loop over a directory's entries returns the error that the
    visit of [child] produced. After a failed [Lstat] only [SkipDir] is
    ignored; after [walk] it is ignored for directories only. *)
Definition stops (child : FsNode) (err : option WalkErr) : bool :=
  match err, child with
  | None, _ => false
  | Some SkipDir, (FsBroken _ _ | FsDir _ _) => false
  | Some _, _ => true
  end.

Section Walk.
Context {S : Type}.
Context (join : string → string → string).
Context (fn : string → option FileInfo → option WalkErr → S → option WalkErr * S).

(** [walk], with the [Lstat] failure of the caller as the third case. *)
Fixpoint walk (path : string) (node : FsNode) (s : S) : option WalkErr * S :=
  match node with
  | FsFile _ => fn path (Some {| IsDir := false |}) None s
  | FsBroken _ err => fn path None (Some (WalkError err)) s
  | FsDir _ entries =>
      let err := match entries with Err e => Some (WalkError e) | Ok _ => None end in
      let '(err1, s) := fn path (Some {| IsDir := true |}) err s in
      match entries, err1 with
      | Ok children, None =>
          (fix loop (children : list FsNode) (s : S) : option WalkErr * S :=
             match children with
             | [] => (None, s)
             | child :: children' =>
                 let '(err, s) := walk (join path (nodeName child)) child s in
                 if stops child err then (err, s) else loop children' s
             end) children s
      | _, _ => (err1, s)
      end
  end.

(** [filepath.Walk]: [SkipDir] and [SkipAll] at the root are no error. *)
Definition Walk (root : string) (tree : FsNode) (s : S) : option error * S :=
  let '(err, s) := walk root tree s in
  match err with
  | Some (WalkError e) => (Some e, s)
  | _ => (None, s)
  end.
End Walk.

End Go.

(** ** The protocol types ([internal/protocol]) *)
Module protocol.

(** [uint32] addition *)
Definition uint32_add (a b : Z) : Z := ((a + b) mod 2 ^ 32)%Z.

Record Position := { Line : Z; Character : Z }.
Record LspRange := { Start : Position; End_ : Position }.
Record Location := { URI : string; Range : LspRange }.

(** The fields of [SymbolInformation] and [WorkspaceSymbol] that the
    tools read. *)
Record SymbolData := {
  Name : string;
  Kind : Z;
  ContainerName : string;
  SymLocation : Location
}.

(** The interface [WorkspaceSymbolResult] by its dynamic type: the two
    types the tools switch on, and any other implementation, of which
    only [GetName] and [GetLocation] can be used. *)
Inductive WorkspaceSymbolResult :=
| SymbolInformation (v : SymbolData)
| WorkspaceSymbol (v : SymbolData)
| OtherSymbol (name : string) (location : Location).

Definition GetName (symbol : WorkspaceSymbolResult) : string :=
  match symbol with
  | SymbolInformation v | WorkspaceSymbol v => Name v
  | OtherSymbol name _ => name
  end.

Definition GetLocation (symbol : WorkspaceSymbolResult) : Location :=
  match symbol with
  | SymbolInformation v | WorkspaceSymbol v => SymLocation v
  | OtherSymbol _ location => location
  end.

(** The answer to [workspace/symbol]; decoding it can fail. *)
Record SymbolResult := { Results : result (list WorkspaceSymbolResult) }.

Record ReferenceParams := {
  TextDocument : string;
  Position_ : Position;
  IncludeDeclaration : bool
}.

End protocol.
Import protocol.

(** ** What the tools use and the sources do not define *)

(** The methods of [*lsp.Client]. *)
Class Client (W : Type) := {
  Symbol : string → W → result SymbolResult * W;
  OpenFile : string → W → option error * W;
  References : ReferenceParams → W → result (list Location) * W
}.

(** The package logger. *)
Class Logger (W : Type) := {
  Debug : string → W → W;
  Info : string → W → W;
  Warn : string → W → W;
  Error : string → W → W
}.

(** The functions, tables and methods of the repository whose source is not
    part of the files embedded here, and the operating system calls. *)
Class Host (W : Type) := {
  (** [protocol.TableKindMap], with [""] for a kind that is no key *)
  TableKindMap : Z → string;
  (** [DocumentUri.Path] *)
  Path : string → string;
  (** [GetFullDefinition]: the three values are returned together *)
  GetFullDefinition : Location → W → (string * Location * option error) * W;
  addLineNumbers : string → Z → string;
  (** the type of [linesToShow] and of an element of [lineRanges] *)
  LinesToShow : Type;
  LineRange : Type;
  GetLineRangesToDisplay : list Location → Z → Z → W → result LinesToShow * W;
  ConvertLinesToRanges : LinesToShow → Z → list LineRange;
  FormatLinesWithRanges : list string → list LineRange → string;
  (** [os.Getenv], [os.ReadFile] *)
  Getenv : string → W → string;
  ReadFile : string → W → result string * W;
  (** [fmt.Sprintf] on a format outside the fragment of [Go.sprintf] *)
  SprintfOther : string → list Go.Arg → string
}.

(** [fmt.Sprintf] with a format computed at run time. *)
Definition Sprintf {W : Type} {H : Host W} (format : string) (args : list Go.Arg) : string :=
  default (SprintfOther format args) (Go.sprintf format args).

(** ** internal/tools/definition.go *)
Module definition.
Section ReadDefinition.
Context {W : Type} {C : Client W} {L : Logger W} {H : Host W}.

(** The type switch of the loop body: the values of [kind] and
    [container] after it, or [None] when it ends in [continue]. *)
Definition switchOnType (symbolName : string) (symbol : WorkspaceSymbolResult)
    : option (string * string) :=
  match symbol with
  | SymbolInformation v =>
      let kind := "Kind: " +:+ TableKindMap (Kind v) +:+ LF in
      let containerName := ContainerName v in
      let container :=
        if decide (containerName ≠ "")
        then "Container Name: " +:+ containerName +:+ LF else "" in
      Some (kind, container)
  | WorkspaceSymbol v =>
      if decide (ContainerName v ≠ "")
      then Some ("Kind: " +:+ TableKindMap (Kind v) +:+ LF,
                 "Container Name: " +:+ ContainerName v +:+ LF)
      else Some ("", "")
  | OtherSymbol _ _ =>
      if decide (GetName symbol ≠ symbolName) then None else Some ("", "")
  end.

(** The format and operands of [locationInfo]. *)
Definition locationInfo (kind container name : string) (loc : Location) : string :=
  Sprintf
    ("Symbol: %s" +:+ LF +:+
     "File: %s" +:+ LF +:+
     kind +:+
     container +:+
     "Range: L%d:C%d - L%d:C%d" +:+ LF +:+ LF)
    [Go.AStr name;
     Go.AStr (Go.TrimPrefix (URI loc) "file://");
     Go.AInt (uint32_add (Line (Start (Range loc))) 1);
     Go.AInt (uint32_add (Character (Start (Range loc))) 1);
     Go.AInt (uint32_add (Line (End_ (Range loc))) 1);
     Go.AInt (uint32_add (Character (End_ (Range loc))) 1)].

(** One iteration of the loop over [results]: the string appended to
    [definitions], or [None] when the iteration ends in [continue]. *)
Definition definitionOf (symbolName : string) (symbol : WorkspaceSymbolResult)
    (w : W) : option string * W :=
  match switchOnType symbolName symbol with
  | None => (None, w)
  | Some (kind, container) =>
      let w := Debug ("Found symbol: " +:+ GetName symbol) w in
      let loc := GetLocation symbol in
      match OpenFile (Path (URI loc)) w with
      | (Some err, w) => (None, Error ("Error opening file: " +:+ err) w)
      | (None, w) =>
          let banner := "---" +:+ LF +:+ LF in
          let '(definition, loc, err, w) := GetFullDefinition loc w in
          let locationInfo := locationInfo kind container (GetName symbol) loc in
          match err with
          | Some err => (None, Error ("Error getting definition: " +:+ err) w)
          | None =>
              let definition :=
                addLineNumbers definition (Line (Start (Range loc)) + 1)%Z in
              (Some (banner +:+ locationInfo +:+ definition +:+ LF), w)
          end
      end
  end.

(** [for _, symbol := range results] with the slice [definitions]. *)
Fixpoint definitionsOf (symbolName : string) (results : list WorkspaceSymbolResult)
    (definitions : list string) (w : W) : list string * W :=
  match results with
  | [] => (definitions, w)
  | symbol :: results' =>
      match definitionOf symbolName symbol w with
      | (None, w) => definitionsOf symbolName results' definitions w
      | (Some d, w) => definitionsOf symbolName results' (definitions ++ [d]) w
      end
  end.

Definition ReadDefinition (symbolName : string) (w : W)
    : (string * option error) * W :=
  match Symbol symbolName w with
  | (Err err, w) => (("", Some ("failed to fetch symbol: " +:+ err)), w)
  | (Ok symbolResult, w) =>
      match Results symbolResult with
      | Err err => (("", Some ("failed to parse results: " +:+ err)), w)
      | Ok results =>
          let '(definitions, w) := definitionsOf symbolName results [] w in
          if decide (length definitions = 0)
          then ((symbolName +:+ " not found", None), w)
          else ((Go.Join definitions "", None), w)
      end
  end.

End ReadDefinition.
End definition.

(** ** The references tool *)
Module references.
Section FindReferences.
Context {W : Type} {C : Client W} {L : Logger W} {H : Host W}.

(** The context width: 5, unless [LSP_CONTEXT_LINES] is set to a decimal
    integer that is not negative. [envLines] is the value of [os.Getenv],
    which is [""] for a variable that is not set. *)
Definition contextLinesOf (envLines : string) : Z :=
  let contextLines := 5%Z in
  if decide (envLines ≠ "") then
    match Go.Atoi envLines with
    | Some val => if decide (0 ≤ val)%Z then val else contextLines
    | None => contextLines
    end
  else contextLines.

(** [refsByFile[ref.URI] = append(refsByFile[ref.URI], ref)] for each
    reference; a key that is absent reads as the nil slice. *)
Definition groupByFile (refs : list Location) : gmap string (list Location) :=
  foldl (λ refsByFile ref,
           <[URI ref := default [] (refsByFile !! URI ref) ++ [ref]]> refsByFile)
        ∅ refs.

(** The keys of the map, in the order of a [range] loop. Go leaves this
    order open; [sortedURIs_any_order] shows that it does not matter. *)
Definition keys (refsByFile : gmap string (list Location)) : list string :=
  (map_to_list refsByFile).*1.

(** [sort.Strings]: ascending by byte-wise comparison. *)
Definition sortStrings (l : list string) : list string :=
  merge_sort String.le l.

Definition sortedURIs (refsByFile : gmap string (list Location)) : list string :=
  sortStrings (keys refsByFile).

(** The header of a file's block. *)
Definition fileInfoOf (filePath : string) (count : nat) : string :=
  "---" +:+ LF +:+ LF +:+ filePath +:+ LF +:+
  "References in File: " +:+ pretty count +:+ LF.

Definition locStr (ref : Location) : string :=
  "L" +:+ pretty (uint32_add (Line (Start (Range ref))) 1) +:+
  ":C" +:+ pretty (uint32_add (Character (Start (Range ref))) 1).

(** One iteration of the loop over [uris]: the string appended to
    [allReferences], or [None] when the iteration ends in [continue]
    without appending. *)
Definition fileBlock (contextLines : Z) (refsByFile : gmap string (list Location))
    (uriStr : string) (w : W) : option string * W :=
  let uri := uriStr in
  let fileRefs := default [] (refsByFile !! uri) in
  let filePath := Go.TrimPrefix uriStr "file://" in
  let fileInfo := fileInfoOf filePath (length fileRefs) in
  match ReadFile filePath w with
  | (Err err, w) => (Some (fileInfo +:+ LF +:+ "Error reading file: " +:+ err), w)
  | (Ok fileContent, w) =>
      let lines := Go.SplitLines fileContent in
      let locStrings := locStr <$> fileRefs in
      match GetLineRangesToDisplay fileRefs (Z.of_nat (length lines)) contextLines w with
      | (Err _, w) => (None, w)
      | (Ok linesToShow, w) =>
          let lineRanges := ConvertLinesToRanges linesToShow (Z.of_nat (length lines)) in
          let formattedOutput := fileInfo in
          let formattedOutput :=
            if decide (0 < length locStrings)
            then formattedOutput +:+ "At: " +:+ Go.Join locStrings ", " +:+ LF
            else formattedOutput in
          let formattedOutput :=
            formattedOutput +:+ LF +:+ FormatLinesWithRanges lines lineRanges in
          (Some formattedOutput, w)
      end
  end.

(** [for _, uriStr := range uris] *)
Fixpoint fileBlocks (contextLines : Z) (refsByFile : gmap string (list Location))
    (uris : list string) (allReferences : list string) (w : W) : list string * W :=
  match uris with
  | [] => (allReferences, w)
  | uriStr :: uris' =>
      match fileBlock contextLines refsByFile uriStr w with
      | (None, w) => fileBlocks contextLines refsByFile uris' allReferences w
      | (Some block, w) =>
          fileBlocks contextLines refsByFile uris' (allReferences ++ [block]) w
      end
  end.

Definition refsParamsOf (loc : Location) : ReferenceParams :=
  {| TextDocument := URI loc;
     Position_ := Start (Range loc);
     IncludeDeclaration := false |}.

(** One iteration of the loop over [results]: [Err] when the function
    returns from inside the loop, otherwise [allReferences] afterwards. *)
Definition symbolReferences (contextLines : Z) (symbol : WorkspaceSymbolResult)
    (allReferences : list string) (w : W) : result (list string) * W :=
  let loc := GetLocation symbol in
  let refsParams := refsParamsOf loc in
  match OpenFile (Path (URI loc)) w with
  | (Some err, w) => (Ok allReferences, Error ("Error opening file: " +:+ err) w)
  | (None, w) =>
      match References refsParams w with
      | (Err err, w) => (Err ("failed to get references: " +:+ err), w)
      | (Ok refs, w) =>
          let refsByFile := groupByFile refs in
          let uris := sortedURIs refsByFile in
          let '(allReferences, w) :=
            fileBlocks contextLines refsByFile uris allReferences w in
          (Ok allReferences, w)
      end
  end.

(** [for _, symbol := range results] *)
Fixpoint allReferencesOf (contextLines : Z) (results : list WorkspaceSymbolResult)
    (allReferences : list string) (w : W) : result (list string) * W :=
  match results with
  | [] => (Ok allReferences, w)
  | symbol :: results' =>
      match symbolReferences contextLines symbol allReferences w with
      | (Err err, w) => (Err err, w)
      | (Ok allReferences, w) => allReferencesOf contextLines results' allReferences w
      end
  end.

Definition FindReferences (symbolName : string) (w : W)
    : (string * option error) * W :=
  let contextLines := contextLinesOf (Getenv "LSP_CONTEXT_LINES" w) in
  match Symbol symbolName w with
  | (Err err, w) => (("", Some ("failed to fetch symbol: " +:+ err)), w)
  | (Ok symbolResult, w) =>
      match Results symbolResult with
      | Err err => (("", Some ("failed to parse results: " +:+ err)), w)
      | Ok results =>
          match allReferencesOf contextLines results [] w with
          | (Err err, w) => (("", Some err), w)
          | (Ok allReferences, w) =>
              if decide (length allReferences = 0)
              then (("No references found for symbol: " +:+ symbolName, None), w)
              else ((Go.Join allReferences LF, None), w)
          end
      end
  end.

End FindReferences.
End references.

(** ** internal/lsp/clangd.go *)
Module clangd.

(** The directory tree that [filepath.Walk] finds at a path, and
    [filepath.Join]. *)
Class FileSystem (W : Type) := {
  Tree : string → W → Go.FsNode;
  PathJoin : string → string → string
}.

Section Initialize.
Context {W : Type} {C : Client W} {L : Logger W} {F : FileSystem W}.

Definition warmupClangdStaticIndex (w : W) : option error * W :=
  let w := Info "Warming up clangd static index..." w in
  let '(r, w) := Symbol "::" w in
  let w := match r with
           | Err err => Warn ("First warmup symbol query failed: " +:+ err) w
           | Ok _ => Debug "First warmup symbol query completed" w
           end in
  let '(r, w) := Symbol "" w in
  let w := match r with
           | Err err => Warn ("Second warmup symbol query failed: " +:+ err) w
           | Ok _ => Debug "Second warmup symbol query completed" w
           end in
  let w := Info "Static index warmup completed" w in
  (None, w).

(** The function literal given to [filepath.Walk]; its state is the slice
    [cppFiles]. [Walk] passes a nil [info] only together with an error. *)
Definition collectCpp (path : string) (info : option Go.FileInfo)
    (err : option Go.WalkErr) (cppFiles : list string)
    : option Go.WalkErr * list string :=
  match err, info with
  | Some err, _ => (Some err, cppFiles)
  | None, None => (None, cppFiles)
  | None, Some info =>
      if Go.IsDir info then
        let basename := Go.Base path in
        if Go.HasPrefix basename "." || bool_decide (basename = "build")
           || bool_decide (basename = "cmake-build-debug")
        then (Some Go.SkipDir, cppFiles)
        else (None, cppFiles)
      else if Go.HasSuffix path ".cpp" || Go.HasSuffix path ".cxx"
              || Go.HasSuffix path ".cc"
      then (None, cppFiles ++ [path])
      else (None, cppFiles)
  end.

Definition maxFilesToOpen : Z := 3.

(** [for _, filePath := range cppFiles] with the counter [fileCount]. *)
Fixpoint openFiles (cppFiles : list string) (fileCount : Z) (w : W) : Z * W :=
  match cppFiles with
  | [] => (fileCount, w)
  | filePath :: cppFiles' =>
      if decide (maxFilesToOpen ≤ fileCount)%Z then (fileCount, w)
      else
        match OpenFile filePath w with
        | (Some err, w) =>
            openFiles cppFiles' fileCount
              (Warn ("Failed to open C++ file " +:+ filePath +:+ ": " +:+ err) w)
        | (None, w) =>
            openFiles cppFiles' (fileCount + 1)%Z
              (Debug ("Opened core C++ file: " +:+ filePath) w)
        end
  end.

Definition openCoreCppFiles (workspaceDir : string) (w : W) : option error * W :=
  let w := Info ("Opening core C++ files in workspace: " +:+ workspaceDir) w in
  let '(err, cppFiles) :=
    Go.Walk PathJoin collectCpp workspaceDir (Tree workspaceDir w) [] in
  match err with
  | Some err => (Some ("error walking workspace directory: " +:+ err), w)
  | None =>
      let '(fileCount, w) := openFiles cppFiles 0%Z w in
      let w := Info ("Opened " +:+ pretty fileCount +:+ " core C++ files") w in
      (None, w)
  end.

Definition initializeClangdLanguageServer (workspaceDir : string) (w : W)
    : option error * W :=
  let w := Info ("Initializing Clangd language server with workspace: "
                 +:+ workspaceDir) w in
  let '(err, w) := warmupClangdStaticIndex w in
  let w := match err with
           | Some err =>
               Warn ("Failed to warm up static index (continuing anyway): " +:+ err) w
           | None => w
           end in
  let '(err, w) := openCoreCppFiles workspaceDir w in
  let w := match err with
           | Some err =>
               Warn ("Failed to open core C++ files (continuing anyway): " +:+ err) w
           | None => w
           end in
  let w := Info "Clangd language server initialization completed successfully" w in
  (None, w).

End Initialize.
End clangd.


(** ** The line-range merger *)
Module ranges.

(** A display range: 1-based, inclusive. *)
Record DisplayRange := { startLine : Z; endLine : Z }.

Definition clamp (totalLines x : Z) : Z := Z.max 1 (Z.min totalLines x).

(** The raw window of a point line. *)
Definition window (totalLines context L : Z) : DisplayRange :=
  {| startLine := clamp totalLines (L - context);
     endLine := clamp totalLines (L + context) |}.

Definition byStart (a b : DisplayRange) : Prop := (startLine a ≤ startLine b)%Z.

#[global] Instance byStart_dec : RelDecision byStart.
Proof. intros a b. unfold byStart. apply _. Defined.

(** The greedy pass over the sorted windows, [cur] being the window under
    construction. *)
Fixpoint mergeInto (cur : DisplayRange) (ws : list DisplayRange) : list DisplayRange :=
  match ws with
  | [] => [cur]
  | next :: ws' =>
      if decide (startLine next ≤ endLine cur + 1)%Z
      then mergeInto {| startLine := startLine cur;
                        endLine := Z.max (endLine cur) (endLine next) |} ws'
      else cur :: mergeInto next ws'
  end.

Definition mergeSorted (ws : list DisplayRange) : list DisplayRange :=
  match ws with
  | [] => []
  | w :: ws' => mergeInto w ws'
  end.

(** Modelled from the spec: the bodies of [GetLineRangesToDisplay] and
    [ConvertLinesToRanges], which compute the display ranges for
    FindReferences, are not among the sources; this is the contract
    [MergeRanges(points, totalLines, context)] of the specification: the
    window of each point, clamped to [1, totalLines], the windows sorted by
    start line, then merged greedily when the next window starts at most
    one line after the end of the current one. *)
Definition MergeRanges (points : list Z) (totalLines context : Z) : list DisplayRange :=
  mergeSorted (merge_sort byStart (window totalLines context <$> points)).

(** A line lies in a range, and is shown by a list of ranges. *)
Definition inside (r : DisplayRange) (l : Z) : Prop :=
  (startLine r ≤ l ≤ endLine r)%Z.

Definition covers (rs : list DisplayRange) (l : Z) : Prop :=
  ∃ r, r ∈ rs ∧ inside r l.

(** A range with at least one line, within the lines of the file. *)
Definition within (totalLines : Z) (r : DisplayRange) : Prop :=
  (1 ≤ startLine r ∧ startLine r ≤ endLine r ∧ endLine r ≤ totalLines)%Z.

(** Consecutive ranges leave at least one line between them. *)
Definition apart (a b : DisplayRange) : Prop := (endLine a + 1 < startLine b)%Z.

End ranges.

(** ** Vocabulary of the statements *)

Section Runs.
Context {W : Type} {C : Client W} {L : Logger W} {H : Host W}.

(** [resolves q results w kept w']: the loop of ReadDefinition over
    [results], started in [w], ends in [w'], and [kept] lists in order the
    matches that produced a block, each with its block. *)
Inductive resolves (symbolName : string)
  : list WorkspaceSymbolResult → W → list (WorkspaceSymbolResult * string) → W → Prop :=
| resolves_nil w : resolves symbolName [] w [] w
| resolves_skip symbol results w w1 kept w2 :
    definition.definitionOf symbolName symbol w = (None, w1) →
    resolves symbolName results w1 kept w2 →
    resolves symbolName (symbol :: results) w kept w2
| resolves_keep symbol results w d w1 kept w2 :
    definition.definitionOf symbolName symbol w = (Some d, w1) →
    resolves symbolName results w1 kept w2 →
    resolves symbolName (symbol :: results) w ((symbol, d) :: kept) w2.

End Runs.

(** The two types with a kind and a container name. *)
Definition isRich (symbol : WorkspaceSymbolResult) : Prop :=
  match symbol with
  | SymbolInformation _ | WorkspaceSymbol _ => True
  | OtherSymbol _ _ => False
  end.

(** A string without the byte [%], which a format copies as it is. *)
Fixpoint noVerb (s : string) : bool :=
  match s with
  | EmptyString => true
  | String a s' => negb (Ascii.eqb a "%"%char) && noVerb s'
  end.

(** [contains sub s]: [sub] occurs in [s]. *)
Fixpoint contains (sub s : string) : bool :=
  Go.HasPrefix s sub ||
  match s with
  | EmptyString => false
  | String _ s' => contains sub s'
  end.

Definition kindOf (symbol : WorkspaceSymbolResult) : Z :=
  match symbol with
  | SymbolInformation v | WorkspaceSymbol v => Kind v
  | OtherSymbol _ _ => 0
  end.

Definition containerOf (symbol : WorkspaceSymbolResult) : string :=
  match symbol with
  | SymbolInformation v | WorkspaceSymbol v => ContainerName v
  | OtherSymbol _ _ => ""
  end.

(** When a block has a Container Name line: the match has one of the two
    types with a container name, and the name is not empty. *)
Definition hasContainerLine (symbol : WorkspaceSymbolResult) : bool :=
  bool_decide (containerOf symbol ≠ "").

(** When a block has a Kind line: always for [SymbolInformation], with a
    container name for [WorkspaceSymbol], never for another type. *)
Definition hasKindLine (symbol : WorkspaceSymbolResult) : bool :=
  match symbol with
  | SymbolInformation _ => true
  | WorkspaceSymbol v => bool_decide (ContainerName v ≠ "")
  | OtherSymbol _ _ => false
  end.

(** The backend supplied a kind: the match has a type with a [Kind] field
    and the field holds a kind of the protocol (these are 1 to 26). *)
Definition suppliesKind (symbol : WorkspaceSymbolResult) : bool :=
  match symbol with
  | SymbolInformation v | WorkspaceSymbol v => bool_decide (1 ≤ Kind v ≤ 26)%Z
  | OtherSymbol _ _ => false
  end.

Section Rendering.
Context {W : Type} {H : Host W}.

Definition kindLine (symbol : WorkspaceSymbolResult) : string :=
  if hasKindLine symbol then "Kind: " +:+ TableKindMap (kindOf symbol) +:+ LF else "".

Definition containerLine (symbol : WorkspaceSymbolResult) : string :=
  if hasContainerLine symbol
  then "Container Name: " +:+ containerOf symbol +:+ LF else "".

Definition rangeLine (loc : Location) : string :=
  "Range: L" +:+ pretty (uint32_add (Line (Start (Range loc))) 1) +:+
  ":C" +:+ pretty (uint32_add (Character (Start (Range loc))) 1) +:+
  " - L" +:+ pretty (uint32_add (Line (End_ (Range loc))) 1) +:+
  ":C" +:+ pretty (uint32_add (Character (End_ (Range loc))) 1) +:+ LF.

(** A definition block as the report format has it, for a match and the
    location and numbered text of its definition. *)
Definition definitionBlock (symbol : WorkspaceSymbolResult) (loc : Location)
    (text : string) : string :=
  "---" +:+ LF +:+ LF +:+
  "Symbol: " +:+ GetName symbol +:+ LF +:+
  "File: " +:+ Go.TrimPrefix (URI loc) "file://" +:+ LF +:+
  kindLine symbol +:+
  containerLine symbol +:+
  rangeLine loc +:+ LF +:+
  text +:+ LF.

End Rendering.

(** ** Vocabulary of the further properties *)

Section Entries.
Context {S : Type}.
Context (join : string → string → string).
Context (fn : string → option Go.FileInfo → option Go.WalkErr → S → option Go.WalkErr * S).

(** The loop of [walk] over the entries of a directory, from the entry
    [children] starts with. *)
Fixpoint walkEntries (path : string) (children : list Go.FsNode) (s : S)
    : option Go.WalkErr * S :=
  match children with
  | [] => (None, s)
  | child :: children' =>
      let '(err, s) := Go.walk join fn (join path (Go.nodeName child)) child s in
      if Go.stops child err then (err, s) else walkEntries path children' s
  end.

End Entries.

(** The directories that the walk of openCoreCppFiles does not enter. *)
Definition skippedDir (path : string) : bool :=
  let basename := Go.Base path in
  Go.HasPrefix basename "." || bool_decide (basename = "build")
  || bool_decide (basename = "cmake-build-debug").

(** The files that the walk of openCoreCppFiles collects. *)
Definition cppSource (path : string) : bool :=
  Go.HasSuffix path ".cpp" || Go.HasSuffix path ".cxx" || Go.HasSuffix path ".cc".

(** The number of line feeds of a string. *)
Fixpoint lineFeeds (s : string) : nat :=
  match s with
  | EmptyString => 0
  | String a s' =>
      (if Ascii.eqb a (Ascii.ascii_of_nat 10) then 1 else 0) + lineFeeds s'
  end.

(** The host [H] with another function in the place of
    [GetLineRangesToDisplay]. *)
Definition withRanges {W : Type} (H : Host W)
    (ranges : list Location → Z → Z → W → result (@LinesToShow W H) * W) : Host W := {|
  TableKindMap := @TableKindMap W H;
  Path := @Path W H;
  GetFullDefinition := @GetFullDefinition W H;
  addLineNumbers := @addLineNumbers W H;
  LinesToShow := @LinesToShow W H;
  LineRange := @LineRange W H;
  GetLineRangesToDisplay := ranges;
  ConvertLinesToRanges := @ConvertLinesToRanges W H;
  FormatLinesWithRanges := @FormatLinesWithRanges W H;
  Getenv := @Getenv W H;
  ReadFile := @ReadFile W H;
  SprintfOther := @SprintfOther W H
|}.

Section Opening.
Context {W : Type} {C : Client W} {L : Logger W}.

(** The world after opening each file of a list in turn, with the log
    entry of a file that opened after each. *)
Fixpoint openAll (cppFiles : list string) (w : W) : W :=
  match cppFiles with
  | [] => w
  | filePath :: cppFiles' =>
      openAll cppFiles'
        (Debug ("Opened core C++ file: " +:+ filePath) (OpenFile filePath w).2)
  end.

End Opening.

(** ** A small workspace for examples

    A language server, a file system and helper functions with fixed
    answers, on which the functions above can be run. The world records the
    value of [LSP_CONTEXT_LINES] and the calls made, in order. *)
Module fixture.

Record World := { lspContextLines : string; journal : list string }.

Definition record (entry : string) (w : World) : World :=
  {| lspContextLines := lspContextLines w; journal := journal w ++ [entry] |}.

Definition start (envLines : string) : World :=
  {| lspContextLines := envLines; journal := [] |}.

Definition at_ (uri : string) (line character : Z) : Location :=
  {| URI := uri;
     Range := {| Start := {| Line := line; Character := character |};
                 End_ := {| Line := line; Character := character + 3 |} |} |}.

Definition runMain : WorkspaceSymbolResult :=
  WorkspaceSymbol {| Name := "run"; Kind := 12; ContainerName := "";
                     SymLocation := at_ "file:///ws/main.cpp" 0 4 |}.
Definition runLocked : WorkspaceSymbolResult :=
  SymbolInformation {| Name := "run"; Kind := 6; ContainerName := "Engine";
                       SymLocation := at_ "file:///ws/locked.cpp" 2 0 |}.
Definition runner : WorkspaceSymbolResult :=
  OtherSymbol "runner" (at_ "file:///ws/main.cpp" 5 0).
Definition runUtil : WorkspaceSymbolResult :=
  OtherSymbol "run" (at_ "file:///ws/util.cpp" 1 0).
Definition runStale : WorkspaceSymbolResult :=
  WorkspaceSymbol {| Name := "run"; Kind := 6; ContainerName := "Task";
                     SymLocation := at_ "file:///ws/stale.cpp" 3 2 |}.
Definition stepMethod : WorkspaceSymbolResult :=
  WorkspaceSymbol {| Name := "step"; Kind := 6; ContainerName := "Engine";
                     SymLocation := at_ "file:///ws/engine.cpp" 7 2 |}.
Definition oddSymbol : WorkspaceSymbolResult :=
  WorkspaceSymbol {| Name := "odd"; Kind := 13; ContainerName := "";
                     SymLocation := at_ "file:///ws/odd.cpp" 0 0 |}.

Definition symbols (query : string) : result SymbolResult :=
  if decide (query = "down") then Err "connection closed"
  else if decide (query = "::") then Err "index not loaded"
  else if decide (query = "") then Err "empty query"
  else if decide (query = "step") then Ok {| Results := Ok [stepMethod] |}
  else if decide (query = "main") then Ok {| Results := Ok [runMain; stepMethod] |}
  else if decide (query = "garbled")
  then Ok {| Results := Err "unexpected end of JSON input" |}
  else if decide (query = "run")
  then Ok {| Results := Ok [runMain; runLocked; runner; runUtil; runStale] |}
  else if decide (query = "odd") then Ok {| Results := Ok [oddSymbol] |}
  else Ok {| Results := Ok [] |}.

Definition mainRefs : list Location :=
  [at_ "file:///ws/util.cpp" 1 0; at_ "file:///ws/main.cpp" 9 2;
   at_ "file:///ws/util.cpp" 7 4; at_ "file:///ws/gone.cpp" 0 0].

Definition referencesOf (params : ReferenceParams) : result (list Location) :=
  if decide (TextDocument params = "file:///ws/stale.cpp") then Err "index not ready"
  else if decide (TextDocument params = "file:///ws/main.cpp") then Ok mainRefs
  else if decide (TextDocument params = "file:///ws/odd.cpp")
  then Ok [at_ "file:///ws/odd.cpp" 4 1]
  else Ok [].

#[export] Instance client : Client World := {|
  Symbol query w := (symbols query, record ("workspace/symbol " +:+ query) w);
  OpenFile path w :=
    (if decide (path = "/ws/locked.cpp") then Some "permission denied" else None,
     record ("didOpen " +:+ path) w);
  References params w :=
    (referencesOf params, record ("references " +:+ TextDocument params) w)
|}.

#[export] Instance logger : Logger World := {|
  Debug msg := record ("DEBUG " +:+ msg);
  Info msg := record ("INFO " +:+ msg);
  Warn msg := record ("WARN " +:+ msg);
  Error msg := record ("ERROR " +:+ msg)
|}.

Definition tenLines : string :=
  "l1" +:+ LF +:+ "l2" +:+ LF +:+ "l3" +:+ LF +:+ "l4" +:+ LF +:+ "l5" +:+ LF +:+
  "l6" +:+ LF +:+ "l7" +:+ LF +:+ "l8" +:+ LF +:+ "l9" +:+ LF +:+ "l10".

Definition numbered (first : Z) (lines : list string) : list string :=
  imap (λ i l, pretty (first + Z.of_nat i)%Z +:+ "|" +:+ l) lines.

Definition showRange (lines : list string) (r : ranges.DisplayRange) : string :=
  let first := Z.to_nat (ranges.startLine r - 1) in
  let count := Z.to_nat (ranges.endLine r - ranges.startLine r + 1) in
  String.concat "" ((λ l, l +:+ LF) <$>
    numbered (ranges.startLine r) (take count (drop first lines))).

(** The host of the examples. With [strict], computing the display ranges
    of the file [odd.cpp] fails. *)
Definition host (strict : bool) : Host World := {|
  TableKindMap kind :=
    if decide (kind = 6%Z) then "Method"
    else if decide (kind = 12%Z) then "Function"
    else if decide (kind = 13%Z) then "Variable" else "";
  Path uri := Go.TrimPrefix uri "file://";
  GetFullDefinition loc w :=
    (if decide (URI loc = "file:///ws/stale.cpp")
     then ("", loc, Some "no enclosing definition")
     else ("void run();", loc, None),
     record ("definition " +:+ URI loc) w);
  addLineNumbers text first := String.concat LF (numbered first (Go.SplitLines text));
  LinesToShow := list ranges.DisplayRange;
  LineRange := ranges.DisplayRange;
  GetLineRangesToDisplay fileRefs totalLines contextLines w :=
    (if strict && bool_decide (URI <$> head fileRefs = Some "file:///ws/odd.cpp")
     then Err "no container"
     else Ok (ranges.MergeRanges ((λ ref, Line (Start (Range ref)) + 1)%Z <$> fileRefs)
                totalLines contextLines),
     w);
  ConvertLinesToRanges linesToShow _ := linesToShow;
  FormatLinesWithRanges lines lineRanges := String.concat "" (showRange lines <$> lineRanges);
  Getenv name w := if decide (name = "LSP_CONTEXT_LINES") then lspContextLines w else "";
  ReadFile path w :=
    (if decide (path = "/ws/gone.cpp") then Err "no such file or directory"
     else Ok tenLines,
     record ("read " +:+ path) w);
  SprintfOther _ _ := "%!(BADFORMAT)"
|}.

Definition workspace : Go.FsNode :=
  Go.FsDir "ws" (Ok [
    Go.FsDir ".git" (Ok [Go.FsFile "hooks.cc"]);
    Go.FsDir "build" (Ok [Go.FsFile "gen.cpp"]);
    Go.FsFile "locked.cpp";
    Go.FsFile "main.cpp";
    Go.FsFile "notes.txt";
    Go.FsDir "src" (Ok [Go.FsFile "a.cc"; Go.FsFile "b.h"; Go.FsFile "c.cxx";
                        Go.FsFile "d.cpp"]);
    Go.FsFile "util.cpp"
  ]).

(** [/ws] is the workspace above; in [/sealed] a directory cannot be read;
    any other path does not exist. *)
#[export] Instance files : clangd.FileSystem World := {|
  clangd.Tree path w :=
    if decide (path = "/ws") then workspace
    else if decide (path = "/sealed")
    then Go.FsDir "sealed" (Ok [Go.FsFile "a.cpp";
                                Go.FsDir "vault" (Err "permission denied")])
    else Go.FsBroken path "no such file or directory";
  clangd.PathJoin dir name := dir +:+ "/" +:+ name
|}.

(** A file system in which the workspace above is found at every path. *)
Definition anywhere : clangd.FileSystem World := {|
  clangd.Tree _ _ := workspace;
  clangd.PathJoin dir name := dir +:+ "/" +:+ name
|}.

End fixture.

(** * Properties *)

(** ** Strings *)

Lemma append_cons (x : ascii) (a b : string) :
  String x a +:+ b = String x (a +:+ b).
Proof. reflexivity. Qed.

Lemma append_nil_l (a : string) : "" +:+ a = a.
Proof. reflexivity. Qed.

Lemma append_assoc (a b c : string) : (a +:+ b) +:+ c = a +:+ (b +:+ c).
Proof. induction a as [|x a IH]; [done|]. by rewrite !append_cons, IH. Qed.

Lemma append_nil_r (a : string) : a +:+ "" = a.
Proof. induction a as [|x a IH]; [done|]. by rewrite append_cons, IH. Qed.

Lemma append_length (a b : string) :
  String.length (a +:+ b) = String.length a + String.length b.
Proof. induction a as [|x a IH]; [done|]. rewrite append_cons. simpl. by rewrite IH. Qed.

(** ** The library functions on examples *)

Example TrimPrefix_examples :
  Go.TrimPrefix "file:///ws/main.cpp" "file://" = "/ws/main.cpp"
  ∧ Go.TrimPrefix "/ws/main.cpp" "file://" = "/ws/main.cpp"
  ∧ Go.TrimPrefix "file:/" "file://" = "file:/".
Proof. repeat split; vm_compute; reflexivity. Qed.

Example HasSuffix_examples :
  Go.HasSuffix "/ws/src/a.cc" ".cc" = true
  ∧ Go.HasSuffix "cc" ".cc" = false
  ∧ Go.HasSuffix "/ws/a.cpp.orig" ".cpp" = false.
Proof. repeat split; vm_compute; reflexivity. Qed.

Example Base_examples :
  Go.Base "/ws/.git" = ".git" ∧ Go.Base "/ws/src/" = "src" ∧ Go.Base "" = "."
  ∧ Go.Base "///" = "/" ∧ Go.Base "main.cpp" = "main.cpp" ∧ Go.Base "." = ".".
Proof. repeat split; vm_compute; reflexivity. Qed.

Example SplitLines_examples :
  Go.SplitLines "" = [""]
  ∧ Go.SplitLines ("a" +:+ LF +:+ "b") = ["a"; "b"]
  ∧ Go.SplitLines ("a" +:+ LF) = ["a"; ""]
  ∧ Go.SplitLines (LF +:+ LF) = [""; ""; ""].
Proof. repeat split; vm_compute; reflexivity. Qed.

Example Atoi_examples :
  Go.Atoi "12" = Some 12%Z ∧ Go.Atoi "+7" = Some 7%Z ∧ Go.Atoi "-0" = Some 0%Z
  ∧ Go.Atoi "007" = Some 7%Z ∧ Go.Atoi "-3" = Some (-3)%Z
  ∧ Go.Atoi "" = None ∧ Go.Atoi "-" = None ∧ Go.Atoi " 5" = None
  ∧ Go.Atoi "5 " = None ∧ Go.Atoi "1_000" = None ∧ Go.Atoi "0x10" = None
  ∧ Go.Atoi "1.5" = None
  ∧ Go.Atoi "9223372036854775807" = Some 9223372036854775807%Z
  ∧ Go.Atoi "9223372036854775808" = None
  ∧ Go.Atoi "-9223372036854775808" = Some (-9223372036854775808)%Z
  ∧ Go.Atoi "-9223372036854775809" = None.
Proof. repeat split; vm_compute; reflexivity. Qed.

Example sprintf_examples :
  Go.sprintf "L%d:C%d" [Go.AInt 3; Go.AInt 14] = Some "L3:C14"
  ∧ Go.sprintf "%s: 100%%" [Go.AStr "done"] = Some "done: 100%"
  ∧ Go.sprintf "%s" [] = None
  ∧ Go.sprintf "plain" [Go.AStr "extra"] = None
  ∧ Go.sprintf "%5d" [Go.AInt 1] = None
  ∧ Go.sprintf "%d" [Go.AStr "one"] = None.
Proof. repeat split; vm_compute; reflexivity. Qed.

(** ** ReadDefinition *)

Section ReadDefinitionFacts.
Context {W : Type} {C : Client W} {L : Logger W} {H : Host W}.
Implicit Types (symbol : WorkspaceSymbolResult) (w : W).

Lemma definitionsOf_app symbolName xs ys definitions w :
  definition.definitionsOf symbolName (xs ++ ys) definitions w =
  let '(ds, w1) := definition.definitionsOf symbolName xs definitions w in
  definition.definitionsOf symbolName ys ds w1.
Proof.
  revert definitions w. induction xs as [|x xs IH]; intros definitions w; simpl.
  - reflexivity.
  - destruct (definition.definitionOf symbolName x w) as [[d|] w1]; apply IH.
Qed.

Lemma resolves_total symbolName results w :
  ∃ kept w', resolves symbolName results w kept w'.
Proof.
  revert w. induction results as [|symbol results IH]; intros w.
  - exists [], w. constructor.
  - destruct (definition.definitionOf symbolName symbol w) as [[d|] w1] eqn:E;
      destruct (IH w1) as (kept & w' & Hr).
    + exists ((symbol, d) :: kept), w'. by eapply resolves_keep.
    + exists kept, w'. by eapply resolves_skip.
Qed.

Lemma resolves_definitionsOf symbolName results w kept w' definitions :
  resolves symbolName results w kept w' →
  definition.definitionsOf symbolName results definitions w =
    (definitions ++ kept.*2, w').
Proof.
  intros Hr. revert definitions.
  induction Hr as [w|symbol results w w1 kept w2 E _ IH
                  |symbol results w d w1 kept w2 E _ IH]; intros definitions; simpl.
  - by rewrite app_nil_r.
  - rewrite E. apply IH.
  - rewrite E, IH. by rewrite <-app_assoc.
Qed.

Lemma resolves_sublist symbolName results w kept w' :
  resolves symbolName results w kept w' → kept.*1 `sublist_of` results.
Proof.
  induction 1; simpl; [constructor| by apply sublist_cons | by apply sublist_skip].
Qed.

Lemma definitionOf_banner symbolName symbol w d w' :
  definition.definitionOf symbolName symbol w = (Some d, w') →
  ∃ body, d = "---" +:+ LF +:+ LF +:+ body +:+ LF.
Proof.
  unfold definition.definitionOf. intros E.
  destruct (definition.switchOnType symbolName symbol) as [[kind container]|];
    [|discriminate].
  destruct (OpenFile _ _) as [[err|] w1]; [discriminate|].
  destruct (GetFullDefinition _ _) as [[[def loc] [err|]] w2]; [discriminate|].
  injection E as <- <-.
  exists (definition.locationInfo kind container (GetName symbol) loc +:+
          addLineNumbers def (Line (Start (Range loc)) + 1)%Z).
  by rewrite !append_assoc.
Qed.

End ReadDefinitionFacts.


(** ** fmt.Sprintf *)

Lemma sprintf_plain (p format : string) (args : list Go.Arg) :
  noVerb p = true →
  Go.sprintf (p +:+ format) args = String.app p <$> Go.sprintf format args.
Proof.
  induction p as [|a p IH]; intros Hp.
  - rewrite append_nil_l. by destruct (Go.sprintf format args).
  - simpl in Hp. apply andb_true_iff in Hp as [Ha Hp].
    rewrite append_cons. simpl. apply negb_true_iff in Ha. rewrite Ha.
    rewrite (IH Hp). by destruct (Go.sprintf format args).
Qed.

Lemma sprintf_s (format s : string) (args : list Go.Arg) :
  Go.sprintf ("%s" +:+ format) (Go.AStr s :: args) =
  String.app s <$> Go.sprintf format args.
Proof. reflexivity. Qed.

Lemma sprintf_d (format : string) (n : Z) (args : list Go.Arg) :
  Go.sprintf ("%d" +:+ format) (Go.AInt n :: args) =
  String.app (pretty n) <$> Go.sprintf format args.
Proof. reflexivity. Qed.

Lemma noVerb_app (a b : string) : noVerb (a +:+ b) = noVerb a && noVerb b.
Proof.
  induction a as [|x a IH]; [done|]. rewrite append_cons. simpl.
  by rewrite IH, andb_assoc.
Qed.

Section RenderingFacts.
Context {W : Type} {H : Host W}.

Lemma locationInfo_plain kind container name loc :
  noVerb kind = true → noVerb container = true →
  definition.locationInfo kind container name loc =
    "Symbol: " +:+ name +:+ LF +:+
    "File: " +:+ Go.TrimPrefix (URI loc) "file://" +:+ LF +:+
    kind +:+ container +:+ rangeLine loc +:+ LF.
Proof.
  intros Hk Hc. unfold definition.locationInfo, Sprintf.
  change ("Symbol: %s" +:+ ?f) with ("Symbol: " +:+ "%s" +:+ f).
  rewrite sprintf_plain, sprintf_s by done.
  rewrite (sprintf_plain LF) by done.
  change ("File: %s" +:+ ?f) with ("File: " +:+ "%s" +:+ f).
  rewrite sprintf_plain, sprintf_s by done.
  rewrite (sprintf_plain LF), (sprintf_plain kind), (sprintf_plain container) by done.
  change ("Range: L%d:C%d - L%d:C%d" +:+ ?f)
    with ("Range: L" +:+ "%d" +:+ ":C" +:+ "%d" +:+ " - L" +:+ "%d" +:+ ":C" +:+ "%d" +:+ f).
  rewrite sprintf_plain, sprintf_d by done.
  rewrite sprintf_plain, sprintf_d by done.
  rewrite sprintf_plain, sprintf_d by done.
  rewrite sprintf_plain, sprintf_d by done.
  rewrite (sprintf_plain LF) by done.
  change (Go.sprintf (LF +:+ "") []) with (Some LF).
  simpl. unfold rangeLine. by rewrite !append_assoc.
Qed.

End RenderingFacts.

(** ** ReadDefinition: the claims *)

Section ReadDefinitionClaims.
Context {W : Type} {C : Client W} {L : Logger W} {H : Host W}.
Implicit Types (symbol : WorkspaceSymbolResult) (w : W).

Lemma switchOnType_rich symbolName symbol :
  isRich symbol →
  definition.switchOnType symbolName symbol =
    Some (kindLine symbol, containerLine symbol).
Proof.
  destruct symbol as [v|v|name loc]; intros Hr; [| |done]; simpl;
    unfold kindLine, containerLine, hasContainerLine; simpl.
  - by destruct (decide (ContainerName v ≠ "")) as [Hc|Hc];
      [rewrite bool_decide_true|rewrite bool_decide_false].
  - by destruct (decide (ContainerName v ≠ "")) as [Hc|Hc];
      [rewrite bool_decide_true|rewrite bool_decide_false].
Qed.

Lemma switchOnType_other symbolName name location :
  definition.switchOnType symbolName (OtherSymbol name location) =
    if decide (name ≠ symbolName) then None else Some ("", "").
Proof. reflexivity. Qed.

Lemma switchOnType_lines symbolName symbol kind container :
  definition.switchOnType symbolName symbol = Some (kind, container) →
  kind = kindLine symbol ∧ container = containerLine symbol.
Proof.
  destruct symbol as [v|v|name loc].
  - rewrite switchOnType_rich by done. by intros [= <- <-].
  - rewrite switchOnType_rich by done. by intros [= <- <-].
  - rewrite switchOnType_other. case_decide; [done|]. by intros [= <- <-].
Qed.

(** C4: a match of the fallback type whose name differs from the query is
    dropped, without any call to the backend, and the loop continues as if
    the match were not in the result list; a match that has one of the two
    richer types, or whose name is the query, yields a block whenever its
    file opens and its definition is found, and for a match of a richer type
    the iteration does not depend on the query at all. *)
Theorem ReadDefinition_name_filter symbolName symbol w :
  (¬ isRich symbol → GetName symbol ≠ symbolName →
     definition.definitionOf symbolName symbol w = (None, w)
     ∧ ∀ before after definitions w0,
         definition.definitionsOf symbolName (before ++ symbol :: after) definitions w0
         = definition.definitionsOf symbolName (before ++ after) definitions w0)
  ∧ (isRich symbol ∨ GetName symbol = symbolName →
     ∀ w1 text loc w2,
       OpenFile (Path (URI (GetLocation symbol)))
                (Debug ("Found symbol: " +:+ GetName symbol) w) = (None, w1) →
       GetFullDefinition (GetLocation symbol) w1 = ((text, loc, None), w2) →
       ∃ d, definition.definitionOf symbolName symbol w = (Some d, w2))
  ∧ (isRich symbol →
     ∀ otherName,
       definition.definitionOf otherName symbol w
       = definition.definitionOf symbolName symbol w).
Proof.
  split; [|split].
  - intros Hr Hname.
    assert (Hd : ∀ w', definition.definitionOf symbolName symbol w' = (None, w')).
    { intros w'. unfold definition.definitionOf.
      destruct symbol as [v|v|name loc]; [by destruct Hr..|].
      rewrite switchOnType_other. simpl in Hname. by rewrite decide_True. }
    split; [apply Hd|].
    intros before after definitions w0. rewrite !definitionsOf_app.
    destruct (definition.definitionsOf symbolName before definitions w0) as [ds w1].
    simpl. by rewrite Hd.
  - intros Hkeep w1 text loc w2 Hopen Hdef. unfold definition.definitionOf.
    assert (∃ kc, definition.switchOnType symbolName symbol = Some kc) as [[k c] ->].
    { destruct Hkeep as [Hr| <-].
      - rewrite switchOnType_rich by done. eauto.
      - destruct symbol as [v|v|name loc']; [rewrite switchOnType_rich by done; eauto..|].
        rewrite switchOnType_other. simpl. rewrite decide_False by naive_solver. eauto. }
    rewrite Hopen, Hdef. eauto.
  - intros Hr otherName. unfold definition.definitionOf.
    by rewrite !switchOnType_rich.
Qed.

(** C5: the blocks are those of the matches that resolve, in the order in
    which the backend returned the matches; the report is their
    concatenation, and every block starts with the [---] banner, which so
    stands between any two consecutive blocks. *)
Theorem ReadDefinition_order symbolName w symbolResult w1 results :
  Symbol symbolName w = (Ok symbolResult, w1) →
  Results symbolResult = Ok results →
  ∃ kept w2,
    resolves symbolName results w1 kept w2
    ∧ kept.*1 `sublist_of` results
    ∧ Forall (λ d, ∃ body, d = "---" +:+ LF +:+ LF +:+ body +:+ LF) kept.*2
    ∧ (kept ≠ [] →
       definition.ReadDefinition symbolName w
       = ((String.concat "" kept.*2, None), w2)).
Proof.
  intros HS HR. destruct (resolves_total symbolName results w1) as (kept & w2 & Hr).
  exists kept, w2. split; [done|]. split; [by eapply resolves_sublist|]. split.
  - clear HS HR. induction Hr as [| |symbol results' w' d w1' kept w2 E _ IH]; simpl.
    + constructor.
    + done.
    + constructor; [by eapply definitionOf_banner|done].
  - intros Hne. unfold definition.ReadDefinition. rewrite HS, HR.
    rewrite (resolves_definitionsOf _ _ _ _ _ [] Hr). simpl.
    rewrite decide_False; [done|]. destruct kept; [done|]. simpl. lia.
Qed.

(** C7: when no match resolves to a block, in particular when the backend
    returns no match at all, the result is the string [<query> not found]
    and no error. *)
Theorem ReadDefinition_not_found symbolName w symbolResult w1 results :
  Symbol symbolName w = (Ok symbolResult, w1) →
  Results symbolResult = Ok results →
  (results = [] →
   definition.ReadDefinition symbolName w = ((symbolName +:+ " not found", None), w1))
  ∧ (∀ w2, resolves symbolName results w1 [] w2 →
     definition.ReadDefinition symbolName w = ((symbolName +:+ " not found", None), w2)).
Proof.
  intros HS HR.
  assert (Hrun : ∀ w2, resolves symbolName results w1 [] w2 →
     definition.ReadDefinition symbolName w = ((symbolName +:+ " not found", None), w2)).
  { intros w2 Hr. unfold definition.ReadDefinition. rewrite HS, HR.
    by rewrite (resolves_definitionsOf _ _ _ _ _ [] Hr). }
  split; [|done]. intros ->. apply Hrun. constructor.
Qed.

Lemma kindLine_present symbol : kindLine symbol ≠ "" ↔ hasKindLine symbol = true.
Proof. unfold kindLine. destruct (hasKindLine symbol); naive_solver. Qed.

Lemma containerLine_present symbol :
  containerLine symbol ≠ "" ↔ hasContainerLine symbol = true.
Proof. unfold containerLine. destruct (hasContainerLine symbol); naive_solver. Qed.

(** C6 (amended): a block has the Container Name line exactly when the
    match has one of the two richer types and a container name that is not
    empty; it has the Kind line for every SymbolInformation, for a
    WorkspaceSymbol exactly when its container name is not empty, and never
    for a match of another type. These are the two strings that the code
    splices into the format of the block; when the name of the kind and the
    container name contain no [%], the block is the one of the report
    format, with the two lines as they are. *)
Theorem ReadDefinition_kind_container_lines symbolName symbol w w1 text loc w2 :
  isRich symbol ∨ GetName symbol = symbolName →
  OpenFile (Path (URI (GetLocation symbol)))
           (Debug ("Found symbol: " +:+ GetName symbol) w) = (None, w1) →
  GetFullDefinition (GetLocation symbol) w1 = ((text, loc, None), w2) →
  definition.definitionOf symbolName symbol w
  = (Some ("---" +:+ LF +:+ LF +:+
           definition.locationInfo (kindLine symbol) (containerLine symbol)
             (GetName symbol) loc +:+
           addLineNumbers text (Line (Start (Range loc)) + 1)%Z +:+ LF), w2)
  ∧ (kindLine symbol ≠ "" ↔ hasKindLine symbol = true)
  ∧ (containerLine symbol ≠ "" ↔ hasContainerLine symbol = true)
  ∧ (noVerb (TableKindMap (kindOf symbol)) = true →
     noVerb (containerOf symbol) = true →
     definition.definitionOf symbolName symbol w
     = (Some (definitionBlock symbol loc
                (addLineNumbers text (Line (Start (Range loc)) + 1)%Z)), w2)).
Proof.
  intros Hkeep Hopen Hdef.
  assert (Hblock : definition.definitionOf symbolName symbol w
    = (Some ("---" +:+ LF +:+ LF +:+
             definition.locationInfo (kindLine symbol) (containerLine symbol)
               (GetName symbol) loc +:+
             addLineNumbers text (Line (Start (Range loc)) + 1)%Z +:+ LF), w2)).
  { unfold definition.definitionOf.
    assert (definition.switchOnType symbolName symbol
            = Some (kindLine symbol, containerLine symbol)) as ->.
    { destruct Hkeep as [Hr| <-]; [by apply switchOnType_rich|].
      destruct symbol as [v|v|name loc']; [by apply switchOnType_rich..|].
      rewrite switchOnType_other. simpl. by rewrite decide_False by naive_solver. }
    rewrite Hopen, Hdef. by rewrite !append_assoc. }
  split; [done|].
  split; [apply kindLine_present|]. split; [apply containerLine_present|].
  intros Hk Hc. rewrite Hblock, locationInfo_plain.
  - unfold definitionBlock. by rewrite !append_assoc.
  - unfold kindLine. destruct (hasKindLine symbol); [|done].
    by rewrite !noVerb_app, Hk.
  - unfold containerLine. destruct (hasContainerLine symbol); [|done].
    by rewrite !noVerb_app, Hc.
Qed.

End ReadDefinitionClaims.

(** *** On the example workspace *)

Section ReadDefinitionExamples.
Import fixture.

Lemma ReadDefinition_name_filter_witness :
  definition.definitionOf (H := host true) "run" runner (start "") = (None, start "")
  ∧ (∃ d, definition.definitionOf (H := host true) "run" runUtil (start "")
          = (Some d, record "definition file:///ws/util.cpp"
                       (record "didOpen /ws/util.cpp"
                          (record "DEBUG Found symbol: run" (start "")))))
  ∧ definition.definitionOf (H := host true) "walk" runMain (start "")
    = definition.definitionOf (H := host true) "run" runMain (start "").
Proof.
  pose proof (ReadDefinition_name_filter (H := host true) "run" runner (start ""))
    as (Hdrop & _ & _).
  pose proof (ReadDefinition_name_filter (H := host true) "run" runUtil (start ""))
    as (_ & Hkeep & _).
  pose proof (ReadDefinition_name_filter (H := host true) "run" runMain (start ""))
    as (_ & _ & Hrich).
  split; [|split].
  - apply Hdrop; [simpl; tauto|vm_compute; discriminate].
  - eapply Hkeep; [right; reflexivity|vm_compute; reflexivity|vm_compute; reflexivity].
  - apply Hrich. exact I.
Defined.

Lemma ReadDefinition_order_witness :
  ∃ kept w2,
    resolves (H := host true) "run" [runMain; runLocked; runner; runUtil; runStale]
      (record "workspace/symbol run" (start "")) kept w2
    ∧ kept.*1 `sublist_of` [runMain; runLocked; runner; runUtil; runStale]
    ∧ Forall (λ d, ∃ body, d = "---" +:+ LF +:+ LF +:+ body +:+ LF) kept.*2
    ∧ (kept ≠ [] →
       definition.ReadDefinition (H := host true) "run" (start "")
       = ((String.concat "" kept.*2, None), w2)).
Proof.
  apply (ReadDefinition_order (H := host true) "run" (start "")
           {| Results := Ok [runMain; runLocked; runner; runUtil; runStale] |});
    vm_compute; reflexivity.
Defined.

Lemma ReadDefinition_not_found_witness :
  definition.ReadDefinition (H := host true) "missing_symbol" (start "")
  = (("missing_symbol not found", None),
     record "workspace/symbol missing_symbol" (start "")).
Proof.
  assert (Hzero : Symbol "missing_symbol" (start "")
                  = (Ok {| Results := Ok [] |},
                     record "workspace/symbol missing_symbol" (start "")))
    by (vm_compute; reflexivity).
  apply (proj1 (ReadDefinition_not_found (H := host true) _ _ _ _ [] Hzero eq_refl)).
  reflexivity.
Defined.

(** Every match of this query fails to resolve, each for another reason. *)
Lemma unresolved_matches_example :
  resolves (H := host true) "runner" [runLocked; runUtil; runStale] (start "") []
    (Error "Error getting definition: no enclosing definition"
       (record "definition file:///ws/stale.cpp"
          (record "didOpen /ws/stale.cpp"
             (record "DEBUG Found symbol: run"
                (Error "Error opening file: permission denied"
                   (record "didOpen /ws/locked.cpp"
                      (record "DEBUG Found symbol: run" (start "")))))))).
Proof.
  eapply resolves_skip; [vm_compute; reflexivity|].
  eapply resolves_skip; [vm_compute; reflexivity|].
  eapply resolves_skip; [vm_compute; reflexivity|].
  apply resolves_nil.
Qed.

Lemma ReadDefinition_kind_container_lines_witness :
  definition.definitionOf (H := host true) "step" stepMethod (start "")
  = (Some ("---" +:+ LF +:+ LF +:+
           "Symbol: step" +:+ LF +:+
           "File: /ws/engine.cpp" +:+ LF +:+
           "Kind: Method" +:+ LF +:+
           "Container Name: Engine" +:+ LF +:+
           "Range: L8:C3 - L8:C6" +:+ LF +:+ LF +:+
           "8|void run();" +:+ LF),
     record "definition file:///ws/engine.cpp"
       (record "didOpen /ws/engine.cpp"
          (record "DEBUG Found symbol: step" (start "")))).
Proof.
  destruct (ReadDefinition_kind_container_lines (H := host true) "step" stepMethod
              (start "")
              (record "didOpen /ws/engine.cpp"
                 (record "DEBUG Found symbol: step" (start "")))
              "void run();" (at_ "file:///ws/engine.cpp" 7 2)
              (record "definition file:///ws/engine.cpp"
                 (record "didOpen /ws/engine.cpp"
                    (record "DEBUG Found symbol: step" (start "")))))
    as (_ & _ & _ & Hblock); [left; exact I|vm_compute; reflexivity..|].
  rewrite Hblock; vm_compute; reflexivity.
Defined.

(** C6 as stated fails: the backend supplies the kind Function (12) for
    this WorkspaceSymbol, and its block has no Kind line, because the match
    has no container name. *)
Lemma ReadDefinition_kind_line_counterexample :
  suppliesKind runMain = true
  ∧ TableKindMap (Host := host true) (kindOf runMain) = "Function"
  ∧ fst (definition.definitionOf (H := host true) "run" runMain (start ""))
    = Some ("---" +:+ LF +:+ LF +:+
            "Symbol: run" +:+ LF +:+
            "File: /ws/main.cpp" +:+ LF +:+
            "Range: L1:C5 - L1:C8" +:+ LF +:+ LF +:+
            "1|void run();" +:+ LF)
  ∧ contains "Kind:" <$> fst (definition.definitionOf (H := host true) "run" runMain (start ""))
    = Some false.
Proof. repeat split; vm_compute; reflexivity. Qed.

End ReadDefinitionExamples.

(** ** strconv.Atoi and decimal printing *)

Lemma digits_app (n : Z) (a b : string) :
  Go.digits n (a +:+ b) = Go.digits n a ≫= λ m, Go.digits m b.
Proof.
  revert n. induction a as [|x a IH]; intros n; [done|].
  rewrite append_cons. simpl. destruct (Go.digit x); [apply IH|done].
Qed.

Lemma digits_nonneg (s : string) (n m : Z) :
  (0 ≤ n)%Z → Go.digits n s = Some m → (0 ≤ m)%Z.
Proof.
  revert n. induction s as [|x s IH]; intros n Hn; simpl.
  - intros [= <-]. done.
  - unfold Go.digit. case_decide; [|done]. apply IH. lia.
Qed.

Lemma pretty_N_go_app (x : N) (s : string) :
  pretty_N_go x s = pretty_N_go x "" +:+ s.
Proof.
  revert s. induction (N.lt_wf_0 x) as [x _ IH]; intros s.
  destruct (decide (x = 0)%N) as [->|Hx].
  - by rewrite !pretty_N_go_0.
  - rewrite !(pretty_N_go_step x) by lia.
    assert (x `div` 10 < x)%N as Hlt by (apply N.div_lt; lia).
    rewrite (IH _ Hlt (String _ s)), (IH _ Hlt (String _ "")).
    by rewrite append_assoc.
Qed.

Lemma digit_pretty_N_char (d : N) :
  (d < 10)%N → Go.digit (pretty_N_char d) = Some (Z.of_N d).
Proof.
  intros Hd.
  assert (d = 0 ∨ d = 1 ∨ d = 2 ∨ d = 3 ∨ d = 4 ∨ d = 5 ∨ d = 6 ∨ d = 7
          ∨ d = 8 ∨ d = 9)%N as Hcases by lia.
  destruct_or!; subst d; reflexivity.
Qed.

Lemma digits_pretty_N_go (x : N) :
  Go.digits 0 (pretty_N_go x "") = Some (Z.of_N x).
Proof.
  induction (N.lt_wf_0 x) as [x _ IH].
  destruct (decide (x = 0)%N) as [->|Hx]; [by rewrite pretty_N_go_0|].
  rewrite pretty_N_go_step, pretty_N_go_app, digits_app by lia.
  rewrite IH by (apply N.div_lt; lia). simpl.
  rewrite digit_pretty_N_char by (apply N.mod_lt; lia).
  f_equal. rewrite (N.div_mod x 10) at 3 by done. lia.
Qed.

Lemma digit_not_sign (a : ascii) (d : Z) :
  Go.digit a = Some d → Ascii.eqb a "-"%char = false ∧ Ascii.eqb a "+"%char = false.
Proof.
  intros Hd. split; apply Ascii.eqb_neq; intros ->; vm_compute in Hd; discriminate.
Qed.

Lemma Atoi_unsigned (s : string) (n : Z) :
  s ≠ "" → Go.digits 0 s = Some n → (n ≤ Go.maxInt)%Z → Go.Atoi s = Some n.
Proof.
  intros Hs Hd Hmax. pose proof (digits_nonneg s 0 n ltac:(done) Hd) as Hn.
  destruct s as [|a s]; [done|]. unfold Go.Atoi.
  assert (is_Some (Go.digit a)) as [d Ha].
  { simpl in Hd. destruct (Go.digit a); [eauto|done]. }
  destruct (digit_not_sign a d Ha) as [-> ->]. rewrite Hd.
  rewrite decide_True; [done|]. unfold Go.minInt. lia.
Qed.

Lemma Atoi_negative (s : string) (n : Z) :
  s ≠ "" → Go.digits 0 s = Some n → (Go.minInt ≤ - n)%Z →
  Go.Atoi ("-" +:+ s) = Some (- n)%Z.
Proof.
  intros Hs Hd Hmin. pose proof (digits_nonneg s 0 n ltac:(done) Hd) as Hn.
  change ("-" +:+ s) with (String "-" s). unfold Go.Atoi.
  change (Ascii.eqb "-" "-") with true. cbv iota.
  destruct s as [|a s]; [done|]. rewrite Hd.
  rewrite decide_True; [done|]. unfold Go.maxInt. lia.
Qed.

Lemma pretty_N_go_nonempty (x : N) : (0 < x)%N → pretty_N_go x "" ≠ "".
Proof.
  intros Hx Hnil. pose proof (digits_pretty_N_go x) as Hd.
  rewrite Hnil in Hd. simpl in Hd. injection Hd. lia.
Qed.

(** Printing a number that fits Go's [int] and reading it back gives the
    number. *)
Lemma Atoi_pretty (n : Z) :
  (Go.minInt ≤ n ≤ Go.maxInt)%Z → Go.Atoi (pretty n) = Some n.
Proof.
  intros Hn. destruct n as [|p|p].
  - reflexivity.
  - apply Atoi_unsigned; [by apply pretty_N_go_nonempty| |lia].
    apply (digits_pretty_N_go (N.pos p)).
  - change (Z.neg p) with (- Z.pos p)%Z.
    change (pretty (- Z.pos p)%Z) with ("-" +:+ pretty_N_go (N.pos p) "").
    apply (Atoi_negative _ (Z.pos p)); [by apply pretty_N_go_nonempty| |lia].
    apply (digits_pretty_N_go (N.pos p)).
Qed.

(** ** FindReferences *)

Section FindReferencesFacts.
Context {W : Type} {C : Client W} {L : Logger W} {H : Host W}.
Implicit Types (symbol : WorkspaceSymbolResult) (w : W).

Lemma allReferencesOf_app contextLines xs ys allReferences w :
  references.allReferencesOf contextLines (xs ++ ys) allReferences w =
  match references.allReferencesOf contextLines xs allReferences w with
  | (Err err, w1) => (Err err, w1)
  | (Ok refs, w1) => references.allReferencesOf contextLines ys refs w1
  end.
Proof.
  revert allReferences w. induction xs as [|x xs IH]; intros allReferences w; simpl.
  - reflexivity.
  - destruct (references.symbolReferences contextLines x allReferences w)
      as [[refs|err] w1]; [apply IH|reflexivity].
Qed.

(** Where an error of FindReferences comes from. *)
Lemma allReferencesOf_error contextLines results allReferences w err w' :
  references.allReferencesOf contextLines results allReferences w = (Err err, w') →
  ∃ e, err = "failed to get references: " +:+ e.
Proof.
  revert allReferences w. induction results as [|symbol results IH];
    intros allReferences w; simpl; [done|].
  destruct (references.symbolReferences contextLines symbol allReferences w)
    as [[refs|e] w1] eqn:E; [apply IH|].
  intros [= <- <-]. unfold references.symbolReferences in E.
  destruct (OpenFile _ _) as [[e1|] w2]; [done|].
  destruct (References _ _) as [[refs|e1] w3].
  - by destruct (references.fileBlocks _ _ _ _ _).
  - injection E as <- <-. eauto.
Qed.

(** A function that computes the display ranges as [GetLineRangesToDisplay]
    does for one context width can take its place in every step of
    FindReferences that works with this width. *)
Lemma fileBlock_withRanges ranges contextLines
    (refsByFile : gmap string (list Location)) uriStr w :
  (∀ fileRefs totalLines w0,
     ranges fileRefs totalLines contextLines w0
     = GetLineRangesToDisplay fileRefs totalLines contextLines w0) →
  references.fileBlock (H := withRanges H ranges) contextLines refsByFile uriStr w
  = references.fileBlock contextLines refsByFile uriStr w.
Proof.
  intros Hsame. unfold references.fileBlock. simpl.
  destruct (ReadFile _ w) as [[fileContent|err] w1]; [|done].
  by rewrite Hsame.
Qed.

Lemma fileBlocks_withRanges ranges contextLines
    (refsByFile : gmap string (list Location)) uris allReferences w :
  (∀ fileRefs totalLines w0,
     ranges fileRefs totalLines contextLines w0
     = GetLineRangesToDisplay fileRefs totalLines contextLines w0) →
  references.fileBlocks (H := withRanges H ranges) contextLines refsByFile uris
    allReferences w
  = references.fileBlocks contextLines refsByFile uris allReferences w.
Proof.
  intros Hsame. revert allReferences w.
  induction uris as [|uriStr uris IH]; intros allReferences w; [done|].
  simpl. rewrite fileBlock_withRanges by done.
  destruct (references.fileBlock contextLines refsByFile uriStr w) as [[block|] w1];
    apply IH.
Qed.

Lemma allReferencesOf_withRanges ranges contextLines results allReferences w :
  (∀ fileRefs totalLines w0,
     ranges fileRefs totalLines contextLines w0
     = GetLineRangesToDisplay fileRefs totalLines contextLines w0) →
  references.allReferencesOf (H := withRanges H ranges) contextLines results
    allReferences w
  = references.allReferencesOf contextLines results allReferences w.
Proof.
  intros Hsame. revert allReferences w.
  induction results as [|symbol results IH]; intros allReferences w; [done|].
  simpl.
  assert (references.symbolReferences (H := withRanges H ranges) contextLines symbol
            allReferences w
          = references.symbolReferences contextLines symbol allReferences w) as ->.
  { unfold references.symbolReferences. simpl.
    destruct (OpenFile _ w) as [[err|] w1]; [done|].
    destruct (References _ w1) as [[refs|err] w2]; [|done].
    by rewrite fileBlocks_withRanges. }
  destruct (references.symbolReferences contextLines symbol allReferences w)
    as [[refs|err] w1]; [apply IH|done].
Qed.

(** C8: the context width is the value of [LSP_CONTEXT_LINES] when that
    reads as an integer that is not negative (in particular for the decimal
    form of every such [int]), and 5 when the variable is unset or empty,
    does not read as an integer, or reads as a negative one; it is never
    negative. FindReferences computes the display ranges with this width
    and no other: a function that agrees with [GetLineRangesToDisplay] at
    this width can take its place without any change of the outcome. An
    error of the call is never one of the setting: it is the failure of the
    symbol query, of decoding its result, or of a references request. *)
Theorem FindReferences_context_width (envLines : string) :
  (0 ≤ references.contextLinesOf envLines)%Z
  ∧ (∀ val, Go.Atoi envLines = Some val → (0 ≤ val)%Z →
       references.contextLinesOf envLines = val)
  ∧ (∀ n, (0 ≤ n ≤ Go.maxInt)%Z → references.contextLinesOf (pretty n) = n)
  ∧ (envLines = "" ∨ Go.Atoi envLines = None
     ∨ (∃ val, Go.Atoi envLines = Some val ∧ (val < 0)%Z) →
     references.contextLinesOf envLines = 5%Z)
  ∧ (∀ symbolName w ranges,
       Getenv "LSP_CONTEXT_LINES" w = envLines →
       (∀ fileRefs totalLines w0,
          ranges fileRefs totalLines (references.contextLinesOf envLines) w0
          = GetLineRangesToDisplay fileRefs totalLines
              (references.contextLinesOf envLines) w0) →
       references.FindReferences (H := withRanges H ranges) symbolName w
       = references.FindReferences symbolName w)
  ∧ (∀ symbolName w out err w',
       references.FindReferences symbolName w = ((out, Some err), w') →
       out = ""
       ∧ ((∃ e, err = "failed to fetch symbol: " +:+ e)
          ∨ (∃ e, err = "failed to parse results: " +:+ e)
          ∨ (∃ e, err = "failed to get references: " +:+ e))).
Proof.
  assert (Hval : ∀ s val, Go.Atoi s = Some val → (0 ≤ val)%Z →
                          references.contextLinesOf s = val).
  { intros s val Ha Hv. unfold references.contextLinesOf.
    rewrite decide_True by (by intros ->). rewrite Ha. by rewrite decide_True. }
  split; [|split; [|split; [|split; [|split]]]].
  - unfold references.contextLinesOf. case_decide; [|done].
    destruct (Go.Atoi envLines); [|done]. by case_decide.
  - apply Hval.
  - intros n Hn. apply Hval; [|lia]. apply Atoi_pretty. unfold Go.minInt. lia.
  - unfold references.contextLinesOf. intros [->|[Hnone|(val & Hsome & Hneg)]].
    + done.
    + case_decide; [|done]. by rewrite Hnone.
    + case_decide; [|done]. rewrite Hsome. by rewrite decide_False by lia.
  - intros symbolName w ranges Henv Hsame. unfold references.FindReferences.
    change (@Getenv W (withRanges H ranges)) with (@Getenv W H). rewrite Henv.
    destruct (Symbol symbolName w) as [[symbolResult|e] w1]; [|done].
    destruct (Results symbolResult) as [results|e]; [|done].
    by rewrite allReferencesOf_withRanges.
  - intros symbolName w out err w'. unfold references.FindReferences.
    destruct (Symbol symbolName w) as [[symbolResult|e] w1].
    2:{ intros [= <- <- <-]. eauto. }
    destruct (Results symbolResult) as [results|e].
    2:{ intros [= <- <- <-]. eauto 6. }
    destruct (references.allReferencesOf _ results [] w1) as [[refs|e] w2] eqn:E.
    + by case_decide.
    + intros [= <- <- <-]. apply allReferencesOf_error in E. eauto 6.
Qed.

(** C1: at any matched symbol that the loop reaches, a failure of
    [OpenFile] leaves the collected references as they are and the loop
    goes on with the matches after it, so the call ends as it would without
    this match; a failure of the references request ends the call at once
    with the error [failed to get references: ...]. *)
Theorem FindReferences_failures symbolName w symbolResult w1 before symbol after
    allReferences w2 :
  let contextLines := references.contextLinesOf (Getenv "LSP_CONTEXT_LINES" w) in
  Symbol symbolName w = (Ok symbolResult, w1) →
  Results symbolResult = Ok (before ++ symbol :: after) →
  references.allReferencesOf contextLines before [] w1 = (Ok allReferences, w2) →
  (∀ err w3,
     OpenFile (Path (URI (GetLocation symbol))) w2 = (Some err, w3) →
     references.symbolReferences contextLines symbol allReferences w2
     = (Ok allReferences, Error ("Error opening file: " +:+ err) w3)
     ∧ references.FindReferences symbolName w
       = match references.allReferencesOf contextLines after allReferences
                 (Error ("Error opening file: " +:+ err) w3) with
         | (Err e, w') => (("", Some e), w')
         | (Ok refs, w') =>
             if decide (length refs = 0)
             then (("No references found for symbol: " +:+ symbolName, None), w')
             else ((Go.Join refs LF, None), w')
         end)
  ∧ (∀ w3 err w4,
       OpenFile (Path (URI (GetLocation symbol))) w2 = (None, w3) →
       References (references.refsParamsOf (GetLocation symbol)) w3 = (Err err, w4) →
       references.FindReferences symbolName w
       = (("", Some ("failed to get references: " +:+ err)), w4)).
Proof.
  intros contextLines HS HR Hbefore. split.
  - intros err w3 Hopen.
    assert (Hsym : references.symbolReferences contextLines symbol allReferences w2
                   = (Ok allReferences, Error ("Error opening file: " +:+ err) w3)).
    { unfold references.symbolReferences. by rewrite Hopen. }
    split; [done|]. unfold references.FindReferences. rewrite HS, HR.
    fold contextLines. rewrite allReferencesOf_app, Hbefore. simpl.
    by rewrite Hsym.
  - intros w3 err w4 Hopen Hrefs. unfold references.FindReferences.
    rewrite HS, HR. fold contextLines. rewrite allReferencesOf_app, Hbefore. simpl.
    unfold references.symbolReferences. by rewrite Hopen, Hrefs.
Qed.

(** C10: when the file cannot be read, its block is the header followed by
    the error text; when the file is read and computing the display ranges
    fails, the iteration appends nothing, so that the loop over the files
    continues with the collected blocks unchanged. *)
Theorem FindReferences_range_failure contextLines refsByFile uriStr w :
  let filePath := Go.TrimPrefix uriStr "file://" in
  let fileRefs := default [] (refsByFile !! uriStr) in
  (∀ err w1,
     ReadFile filePath w = (Err err, w1) →
     references.fileBlock contextLines refsByFile uriStr w
     = (Some (references.fileInfoOf filePath (length fileRefs) +:+ LF +:+
              "Error reading file: " +:+ err), w1))
  ∧ (∀ fileContent w1 err w2,
       ReadFile filePath w = (Ok fileContent, w1) →
       GetLineRangesToDisplay fileRefs
         (Z.of_nat (length (Go.SplitLines fileContent))) contextLines w1 = (Err err, w2) →
       references.fileBlock contextLines refsByFile uriStr w = (None, w2)
       ∧ ∀ uris allReferences,
           references.fileBlocks contextLines refsByFile (uriStr :: uris) allReferences w
           = references.fileBlocks contextLines refsByFile uris allReferences w2).
Proof.
  intros filePath fileRefs. split.
  - intros err w1 Hread. unfold references.fileBlock. fold filePath. by rewrite Hread.
  - intros fileContent w1 err w2 Hread Hranges.
    assert (Hb : references.fileBlock contextLines refsByFile uriStr w = (None, w2)).
    { unfold references.fileBlock. fold filePath fileRefs. by rewrite Hread, Hranges. }
    split; [done|]. intros uris allReferences. simpl. by rewrite Hb.
Qed.

End FindReferencesFacts.

(** *** Grouping by file *)

Section Grouping.
Implicit Types (refs : list Location) (u : string).

Lemma groupByFile_lookup refs u :
  references.groupByFile refs !! u =
    let l := filter (λ ref, URI ref = u) refs in
    if decide (l = []) then None else Some l.
Proof.
  unfold references.groupByFile.
  induction refs as [|ref refs IH] using rev_ind.
  { simpl. apply lookup_empty. }
  rewrite foldl_snoc, filter_app. cbv zeta in *.
  destruct (decide (URI ref = u)) as [Heq|Hne].
  - subst u. rewrite lookup_insert_eq, IH.
    rewrite (filter_cons_True _ ref) by done. rewrite filter_nil.
    rewrite (decide_False (P := _ ++ [ref] = [])) by (by destruct (filter _ refs)).
    by case_decide as Hl; [rewrite Hl|].
  - rewrite lookup_insert_ne, IH by done.
    rewrite (filter_cons_False _ ref) by done. by rewrite filter_nil, app_nil_r.
Qed.

Lemma groupByFile_default refs u :
  default [] (references.groupByFile refs !! u) = filter (λ ref, URI ref = u) refs.
Proof. rewrite groupByFile_lookup. cbv zeta. by case_decide as Hl; [rewrite Hl|]. Qed.

Lemma elem_of_keys refs u :
  u ∈ references.keys (references.groupByFile refs) ↔ ∃ ref, ref ∈ refs ∧ URI ref = u.
Proof.
  unfold references.keys. rewrite list_elem_of_fmap. split.
  - intros ([u' l] & -> & Hin). apply elem_of_map_to_list in Hin. simpl in *.
    rewrite groupByFile_lookup in Hin. cbv zeta in Hin. case_decide as Hl; [done|].
    destruct (filter _ refs) as [|ref l'] eqn:Hf; [done|].
    assert (ref ∈ filter (λ ref, URI ref = u') refs) as Href by (rewrite Hf; left).
    apply list_elem_of_filter in Href as [Hu Href]. eauto.
  - intros (ref & Hin & <-).
    exists (URI ref, filter (λ r, URI r = URI ref) refs). split; [done|].
    apply elem_of_map_to_list. rewrite groupByFile_lookup. cbv zeta.
    rewrite decide_False; [done|]. intros Hnil.
    assert (ref ∈ filter (λ r, URI r = URI ref) refs) as Href
      by (by apply list_elem_of_filter).
    rewrite Hnil in Href. by apply elem_of_nil in Href.
Qed.

Lemma NoDup_keys (m : gmap string (list Location)) : NoDup (references.keys m).
Proof. apply NoDup_fst_map_to_list. Qed.

Lemma sortStrings_Permutation (l : list string) : references.sortStrings l ≡ₚ l.
Proof. apply merge_sort_Permutation. Qed.

Lemma sortStrings_Sorted (l : list string) : Sorted String.le (references.sortStrings l).
Proof. apply (Sorted_merge_sort String.le). Qed.

(** The order in which the [range] loop yields the keys does not matter. *)
Lemma sortedURIs_any_order (m : gmap string (list Location)) (l : list string) :
  l ≡ₚ references.keys m → references.sortStrings l = references.sortedURIs m.
Proof.
  intros Hl. apply (Sorted_unique String.le); [apply sortStrings_Sorted..|].
  unfold references.sortedURIs. by rewrite !sortStrings_Permutation.
Qed.

Lemma StronglySorted_strict (l : list string) :
  StronglySorted String.le l → NoDup l → StronglySorted (strict String.le) l.
Proof.
  induction 1 as [|x l Hs IH Hall]; intros Hnd; [constructor|].
  apply NoDup_cons in Hnd as [Hx Hnd]. constructor; [by apply IH|].
  apply Forall_forall. intros y Hy. split.
  - by eapply Forall_forall in Hall.
  - intros Hyx. assert (x = y) as ->; [|done].
    apply (anti_symm String.le); [|done]. by eapply Forall_forall in Hall.
Qed.

Lemma sum_list_cons (n : nat) (l : list nat) : sum_list (n :: l) = n + sum_list l.
Proof. reflexivity. Qed.

Lemma sum_list_indicator (x : string) (l : list string) :
  NoDup l →
  sum_list ((λ u, if decide (x = u) then 1 else 0) <$> l) = if decide (x ∈ l) then 1 else 0.
Proof.
  induction 1 as [|y l Hy Hnd IH]; [done|]. rewrite fmap_cons, sum_list_cons, IH.
  destruct (decide (x = y)) as [->|Hne].
  - rewrite decide_False by done. rewrite decide_True by left. done.
  - destruct (decide (x ∈ l)).
    + rewrite decide_True by (by right). done.
    + rewrite decide_False; [done|]. rewrite elem_of_cons. by intros [?|?].
Qed.

Lemma sum_list_plus {A} (f g : A → nat) (l : list A) :
  sum_list ((λ x, f x + g x) <$> l) = sum_list (f <$> l) + sum_list (g <$> l).
Proof.
  induction l as [|x l IH]; [done|]. rewrite !fmap_cons, !sum_list_cons, IH. lia.
Qed.

Lemma sum_counts refs (l : list string) :
  NoDup l → (∀ ref, ref ∈ refs → URI ref ∈ l) →
  sum_list ((λ u, length (filter (λ ref, URI ref = u) refs)) <$> l) = length refs.
Proof.
  intros Hnd. induction refs as [|ref refs IH]; intros Hin.
  - clear Hnd Hin. induction l as [|u l IHl]; [done|].
    by rewrite fmap_cons, sum_list_cons, IHl.
  - transitivity (sum_list ((λ u, (if decide (URI ref = u) then 1 else 0)
                                   + length (filter (λ r, URI r = u) refs)) <$> l)).
    { f_equal. apply list_fmap_ext. intros _ u _. rewrite filter_cons.
      by destruct (decide (URI ref = u)). }
    rewrite sum_list_plus, sum_list_indicator by done.
    rewrite decide_True by (apply Hin; left).
    rewrite IH; [done|]. intros r Hr. apply Hin. by right.
Qed.

End Grouping.

Section FindReferencesGrouping.
Context {W : Type} {C : Client W} {L : Logger W} {H : Host W}.
Implicit Types (symbol : WorkspaceSymbolResult) (w : W).

Lemma fileBlock_header contextLines (refsByFile : gmap string (list Location))
    uriStr w block w' :
  references.fileBlock contextLines refsByFile uriStr w = (Some block, w') →
  ∃ rest,
    block = references.fileInfoOf (Go.TrimPrefix uriStr "file://")
              (length (default [] (refsByFile !! uriStr))) +:+ rest.
Proof.
  unfold references.fileBlock.
  destruct (ReadFile _ w) as [[fileContent|err] w1].
  - destruct (GetLineRangesToDisplay _ _ _ w1) as [[linesToShow|err] w2]; [|done].
    intros [= <- <-]. case_decide.
    + eexists. by rewrite !append_assoc.
    + eexists. reflexivity.
  - intros [= <- <-]. eauto.
Qed.

Lemma fileBlock_emits contextLines (refsByFile : gmap string (list Location))
    uriStr w :
  (∀ fileRefs totalLines w1, ∃ linesToShow w2,
     GetLineRangesToDisplay fileRefs totalLines contextLines w1 = (Ok linesToShow, w2)) →
  ∃ block w', references.fileBlock contextLines refsByFile uriStr w = (Some block, w').
Proof.
  intros Hok. unfold references.fileBlock.
  destruct (ReadFile _ w) as [[fileContent|err] w1]; [|eauto].
  edestruct Hok as (linesToShow & w2 & ->). eauto.
Qed.

Lemma fileBlocks_emitted contextLines (refsByFile : gmap string (list Location))
    uris allReferences w :
  ∃ (emitted : list (string * string)) w',
    references.fileBlocks contextLines refsByFile uris allReferences w
    = (allReferences ++ emitted.*2, w')
    ∧ emitted.*1 `sublist_of` uris
    ∧ Forall (λ ub, ∃ rest,
                ub.2 = references.fileInfoOf (Go.TrimPrefix ub.1 "file://")
                         (length (default [] (refsByFile !! ub.1))) +:+ rest) emitted
    ∧ ((∀ fileRefs totalLines w1, ∃ linesToShow w2,
          GetLineRangesToDisplay fileRefs totalLines contextLines w1
          = (Ok linesToShow, w2)) →
       emitted.*1 = uris).
Proof.
  revert allReferences w. induction uris as [|uriStr uris IH]; intros allReferences w.
  - exists [], w. simpl. rewrite app_nil_r. repeat split; constructor.
  - simpl.
    destruct (references.fileBlock contextLines refsByFile uriStr w)
      as [[block|] w1] eqn:E.
    + destruct (IH (allReferences ++ [block]) w1) as (emitted & w' & -> & Hsub & Hhdr & Hall).
      exists ((uriStr, block) :: emitted), w'. simpl. rewrite <-app_assoc.
      repeat split; [by apply sublist_skip| |].
      * constructor; [by eapply fileBlock_header|done].
      * intros Hok. f_equal. by apply Hall.
    + destruct (IH allReferences w1) as (emitted & w' & -> & Hsub & Hhdr & Hall).
      exists emitted, w'. repeat split; [by apply sublist_cons|done|].
      intros Hok. destruct (fileBlock_emits contextLines refsByFile uriStr w Hok)
        as (b & w2 & Hb). congruence.
Qed.

Lemma symbolReferences_appends contextLines symbol allReferences w refs w' :
  references.symbolReferences contextLines symbol allReferences w = (Ok refs, w') →
  ∃ added,
    refs = allReferences ++ added
    ∧ Forall (λ block, ∃ filePath count rest,
                block = references.fileInfoOf filePath count +:+ rest) added.
Proof.
  unfold references.symbolReferences.
  destruct (OpenFile _ w) as [[err|] w1].
  { intros [= <- <-]. exists []. by rewrite app_nil_r. }
  destruct (References _ w1) as [[found|err] w2]; [|done].
  destruct (fileBlocks_emitted contextLines (references.groupByFile found)
              (references.sortedURIs (references.groupByFile found)) allReferences w2)
    as (emitted & w3 & -> & _ & Hhdr & _).
  intros [= <- <-]. exists emitted.*2. split; [done|].
  apply Forall_fmap. eapply Forall_impl; [done|].
  intros [u b] (rest & Hb). simpl in *. subst b. eauto.
Qed.

Lemma allReferencesOf_appends contextLines results allReferences w refs w' :
  references.allReferencesOf contextLines results allReferences w = (Ok refs, w') →
  ∃ added,
    refs = allReferences ++ added
    ∧ Forall (λ block, ∃ filePath count rest,
                block = references.fileInfoOf filePath count +:+ rest) added.
Proof.
  revert allReferences w. induction results as [|symbol results IH];
    intros allReferences w; simpl.
  - intros [= <- <-]. exists []. by rewrite app_nil_r.
  - destruct (references.symbolReferences contextLines symbol allReferences w)
      as [[refs1|err] w1] eqn:E; [|done].
    apply symbolReferences_appends in E as (added1 & -> & Hadd1).
    intros (added2 & -> & Hadd2)%IH. exists (added1 ++ added2).
    rewrite app_assoc. split; [done|]. by apply Forall_app.
Qed.

Lemma Forall2_fst_snd {A B} (P : A → B → Prop) (l : list (A * B)) :
  Forall (λ ab, P ab.1 ab.2) l → Forall2 P l.*1 l.*2.
Proof. induction 1; constructor; done. Qed.

(** C3 (amended): the references that the backend returns for a matched
    symbol are grouped by file URI, each group keeping the order of the
    backend; the files are processed in ascending order of their URIs,
    each once, and the reference counts of the files add up to the number
    of references returned. When the display ranges of these files are
    computed, the blocks appended for the match are one per file, in this
    order, each starting with the header that prints the count of its file;
    and when no later references request fails, these blocks are part of
    the report that FindReferences returns, after the blocks of the matches
    before and in front of those of the matches after, so that the counts
    printed for the match add up to the number of its references. *)
Theorem FindReferences_grouping symbolName w symbolResult w1 before symbol after
    allReferences w2 w3 refs w4 :
  let contextLines := references.contextLinesOf (Getenv "LSP_CONTEXT_LINES" w) in
  let refsByFile := references.groupByFile refs in
  let uris := references.sortedURIs refsByFile in
  let count := λ u, length (default [] (refsByFile !! u)) in
  Symbol symbolName w = (Ok symbolResult, w1) →
  Results symbolResult = Ok (before ++ symbol :: after) →
  references.allReferencesOf contextLines before [] w1 = (Ok allReferences, w2) →
  OpenFile (Path (URI (GetLocation symbol))) w2 = (None, w3) →
  References (references.refsParamsOf (GetLocation symbol)) w3 = (Ok refs, w4) →
  (∀ u, default [] (refsByFile !! u) = filter (λ ref, URI ref = u) refs)
  ∧ (∀ u, u ∈ uris ↔ ∃ ref, ref ∈ refs ∧ URI ref = u)
  ∧ StronglySorted (strict String.le) uris
  ∧ sum_list (count <$> uris) = length refs
  ∧ ∃ blocks w5,
      references.symbolReferences contextLines symbol allReferences w2
      = (Ok (allReferences ++ blocks), w5)
      ∧ ((∀ fileRefs totalLines w', ∃ linesToShow w'',
            GetLineRangesToDisplay fileRefs totalLines contextLines w'
            = (Ok linesToShow, w'')) →
         Forall2 (λ u block, ∃ rest,
                    block = references.fileInfoOf (Go.TrimPrefix u "file://")
                              (count u) +:+ rest) uris blocks)
      ∧ (∀ final w6,
           references.allReferencesOf contextLines after (allReferences ++ blocks) w5
           = (Ok final, w6) →
           (∃ later, final = allReferences ++ blocks ++ later)
           ∧ references.FindReferences symbolName w
             = ((if decide (length final = 0)
                 then "No references found for symbol: " +:+ symbolName
                 else Go.Join final LF, None), w6)).
Proof.
  intros contextLines refsByFile uris count HS HR Hbefore Hopen Hrefs.
  assert (Hperm : uris ≡ₚ references.keys refsByFile)
    by apply sortStrings_Permutation.
  assert (Hnd : NoDup uris) by (rewrite Hperm; apply NoDup_keys).
  assert (Hin : ∀ u, u ∈ uris ↔ ∃ ref, ref ∈ refs ∧ URI ref = u).
  { intros u. rewrite Hperm. apply elem_of_keys. }
  split; [apply groupByFile_default|]. split; [done|]. split; [|split].
  - apply StronglySorted_strict; [|done].
    apply Sorted_StronglySorted; [apply _|apply sortStrings_Sorted].
  - transitivity (sum_list ((λ u, length (filter (λ ref, URI ref = u) refs)) <$> uris)).
    { f_equal. apply list_fmap_ext. intros _ u _. unfold count, refsByFile.
      by rewrite groupByFile_default. }
    apply sum_counts; [done|]. intros ref Href. apply Hin. eauto.
  - destruct (fileBlocks_emitted contextLines refsByFile uris allReferences w4)
      as (emitted & w5 & Hblocks & _ & Hhdr & Hall).
    assert (Hsym : references.symbolReferences contextLines symbol allReferences w2
                   = (Ok (allReferences ++ emitted.*2), w5)).
    { unfold references.symbolReferences. rewrite Hopen, Hrefs.
      fold refsByFile. fold uris. by rewrite Hblocks. }
    exists emitted.*2, w5. split; [done|]. split.
    + intros Hok. rewrite <-(Hall Hok). by apply Forall2_fst_snd.
    + intros final w6 Hafter. split.
      * apply allReferencesOf_appends in Hafter as (later & -> & _).
        exists later. by rewrite app_assoc.
      * unfold references.FindReferences. rewrite HS, HR. fold contextLines.
        rewrite allReferencesOf_app, Hbefore. simpl. rewrite Hsym, Hafter.
        by case_decide.
Qed.

End FindReferencesGrouping.

(** *** On the example workspace *)

Section FindReferencesExamples.
Import fixture.

Lemma FindReferences_failures_witness :
  let w1 := record "workspace/symbol run" (start "") in
  let skipped := references.allReferencesOf (H := host true) 5 [runMain] [] w1 in
  let reached :=
    references.allReferencesOf (H := host true) 5 [runMain; runLocked; runner; runUtil] [] w1 in
  references.symbolReferences (H := host true) 5 runLocked
    (match skipped.1 with Ok refs => refs | Err _ => [] end) skipped.2
  = (Ok (match skipped.1 with Ok refs => refs | Err _ => [] end),
     record "ERROR Error opening file: permission denied"
       (record "didOpen /ws/locked.cpp" skipped.2))
  ∧ references.FindReferences (H := host true) "run" (start "")
    = (("", Some "failed to get references: index not ready"),
       record "references file:///ws/stale.cpp"
         (record "didOpen /ws/stale.cpp" reached.2)).
Proof.
  intros w1 skipped reached.
  assert (HS : Symbol "run" (start "")
               = (Ok {| Results := Ok [runMain; runLocked; runner; runUtil; runStale] |}, w1))
    by (vm_compute; reflexivity).
  split.
  - pose proof (FindReferences_failures (H := host true) "run" (start "") _ w1
                  [runMain] runLocked [runner; runUtil; runStale]
                  (match skipped.1 with Ok refs => refs | Err _ => [] end) skipped.2
                  HS eq_refl) as Hw.
    destruct Hw as [Hskip _]; [vm_compute; reflexivity|].
    destruct (Hskip "permission denied" (record "didOpen /ws/locked.cpp" skipped.2))
      as [Hsym _]; [vm_compute; reflexivity|].
    vm_compute in Hsym |- *. exact Hsym.
  - pose proof (FindReferences_failures (H := host true) "run" (start "") _ w1
                  [runMain; runLocked; runner; runUtil] runStale []
                  (match reached.1 with Ok refs => refs | Err _ => [] end) reached.2
                  HS eq_refl) as Hw.
    destruct Hw as [_ Hfail]; [vm_compute; reflexivity|].
    specialize (Hfail (record "didOpen /ws/stale.cpp" reached.2) "index not ready"
                  (record "references file:///ws/stale.cpp"
                     (record "didOpen /ws/stale.cpp" reached.2))).
    vm_compute in Hfail |- *. apply Hfail; reflexivity.
Defined.

Lemma FindReferences_context_width_witness :
  references.contextLinesOf "12" = 12%Z
  ∧ references.contextLinesOf (pretty 40%Z) = 40%Z
  ∧ references.contextLinesOf "" = 5%Z
  ∧ references.contextLinesOf "1e3" = 5%Z
  ∧ references.contextLinesOf "-3" = 5%Z
  ∧ references.contextLinesOf "99999999999999999999" = 5%Z
  ∧ references.FindReferences
      (H := withRanges (host false)
              (λ fileRefs totalLines contextLines w,
                 if decide (contextLines = 2%Z)
                 then GetLineRangesToDisplay (Host := host false)
                        fileRefs totalLines contextLines w
                 else (Err "another width", w)))
      "odd" (start "2")
    = references.FindReferences (H := host false) "odd" (start "2")
  ∧ ((∃ e, "failed to fetch symbol: connection closed" = "failed to fetch symbol: " +:+ e)
     ∨ (∃ e, "failed to fetch symbol: connection closed" = "failed to parse results: " +:+ e)
     ∨ (∃ e, "failed to fetch symbol: connection closed"
             = "failed to get references: " +:+ e)).
Proof.
  pose proof (λ envLines, FindReferences_context_width (H := host true) envLines) as Hw.
  split; [|split; [|split; [|split; [|split; [|split; [|split]]]]]].
  - destruct (Hw "12") as (_ & Hval & _). apply Hval; [vm_compute; reflexivity|lia].
  - destruct (Hw "") as (_ & _ & Hdec & _). apply Hdec. unfold Go.maxInt. lia.
  - destruct (Hw "") as (_ & _ & _ & Hdef & _). apply Hdef. left. reflexivity.
  - destruct (Hw "1e3") as (_ & _ & _ & Hdef & _). apply Hdef. right. left.
    vm_compute. reflexivity.
  - destruct (Hw "-3") as (_ & _ & _ & Hdef & _). apply Hdef. right. right.
    exists (-3)%Z. split; [vm_compute; reflexivity|lia].
  - destruct (Hw "99999999999999999999") as (_ & _ & _ & Hdef & _). apply Hdef.
    right. left. vm_compute. reflexivity.
  - destruct (FindReferences_context_width (H := host false) "2")
      as (_ & _ & _ & _ & Huse & _).
    apply Huse; [reflexivity|]. intros fileRefs totalLines w0.
    assert (references.contextLinesOf "2" = 2%Z) as -> by (vm_compute; reflexivity).
    reflexivity.
  - destruct (Hw "-3") as (_ & _ & _ & _ & _ & Herr).
    eapply (Herr "down" (start "-3") ""); vm_compute; reflexivity.
Defined.

Lemma FindReferences_range_failure_witness :
  references.fileBlock (H := host true) 5 (references.groupByFile mainRefs)
    "file:///ws/gone.cpp" (start "")
  = (Some (references.fileInfoOf "/ws/gone.cpp" 1 +:+ LF +:+
           "Error reading file: no such file or directory"),
     record "read /ws/gone.cpp" (start ""))
  ∧ references.fileBlock (H := host true) 5
      (references.groupByFile [at_ "file:///ws/odd.cpp" 4 1])
      "file:///ws/odd.cpp" (start "")
    = (None, record "read /ws/odd.cpp" (start "")).
Proof.
  split.
  - destruct (FindReferences_range_failure (H := host true) 5
                (references.groupByFile mainRefs) "file:///ws/gone.cpp" (start ""))
      as [Hread _].
    specialize (Hread "no such file or directory" (record "read /ws/gone.cpp" (start ""))).
    vm_compute in Hread |- *. apply Hread. reflexivity.
  - destruct (FindReferences_range_failure (H := host true) 5
                (references.groupByFile [at_ "file:///ws/odd.cpp" 4 1])
                "file:///ws/odd.cpp" (start ""))
      as [_ Hranges].
    destruct (Hranges tenLines (record "read /ws/odd.cpp" (start "")) "no container"
                (record "read /ws/odd.cpp" (start ""))) as [Hnone _];
      [vm_compute; reflexivity..|].
    exact Hnone.
Defined.

Lemma FindReferences_grouping_witness :
  let uris := ["file:///ws/gone.cpp"; "file:///ws/main.cpp"; "file:///ws/util.cpp"] in
  let counts := [1; 1; 2] in
  references.sortedURIs (references.groupByFile mainRefs) = uris
  ∧ sum_list counts = length mainRefs
  ∧ ∃ blocks,
      Forall2 (λ un block, ∃ rest,
                 block = references.fileInfoOf (Go.TrimPrefix un.1 "file://") un.2
                         +:+ rest) (zip uris counts) blocks
      ∧ (references.FindReferences (H := host false) "main" (start "")).1
        = (Go.Join blocks LF, None).
Proof.
  intros uris counts. split; [vm_compute; reflexivity|]. split; [reflexivity|].
  set (w1 := record "workspace/symbol main" (start "")).
  set (w3 := record "didOpen /ws/main.cpp" w1).
  set (w4 := record "references file:///ws/main.cpp" w3).
  destruct (FindReferences_grouping (H := host false) "main" (start "")
              {| Results := Ok [runMain; stepMethod] |} w1 [] runMain [stepMethod]
              [] w1 w3 mainRefs w4)
    as (_ & _ & _ & _ & blocks & w5 & Hsym & Hhdr & Hreport);
    [vm_compute; reflexivity..|].
  exists blocks. split.
  - assert (Hzip : zip uris counts
                   = (λ u, (u, length (default [] (references.groupByFile mainRefs !! u))))
                     <$> references.sortedURIs (references.groupByFile mainRefs))
      by (vm_compute; reflexivity).
    rewrite Hzip. apply Forall2_fmap_l. simpl. apply Hhdr.
    intros fileRefs totalLines w'. eexists _, _. reflexivity.
  - vm_compute in Hsym. injection Hsym as <- <-.
    edestruct Hreport as [_ ->]; [vm_compute; reflexivity|].
    vm_compute. reflexivity.
Defined.

(** C3 as stated fails: the backend returns four references for the first
    match of this query, the display ranges of their files are computed,
    and the references request of a later match fails, so that the call
    returns the error and an empty text: no header is printed, and the
    counts printed add up to 0. *)
Lemma FindReferences_header_counts_counterexample :
  (Symbol "run" (start "")).1
  = Ok {| Results := Ok [runMain; runLocked; runner; runUtil; runStale] |}
  ∧ References (references.refsParamsOf (GetLocation runMain))
      (record "didOpen /ws/main.cpp" (record "workspace/symbol run" (start "")))
    = (Ok mainRefs,
       record "references file:///ws/main.cpp"
         (record "didOpen /ws/main.cpp" (record "workspace/symbol run" (start ""))))
  ∧ length mainRefs = 4
  ∧ (references.FindReferences (H := host false) "run" (start "")).1
    = ("", Some "failed to get references: index not ready")
  ∧ contains "References in File:" "" = false.
Proof. repeat split; vm_compute; reflexivity. Qed.

(** When computing the display ranges of a file fails, its block is left
    out: here the only reference of the match is in such a file. *)
Example range_failure_example :
  (References (references.refsParamsOf (GetLocation oddSymbol))
     (record "didOpen /ws/odd.cpp" (start ""))).1
  = Ok [at_ "file:///ws/odd.cpp" 4 1]
  ∧ (references.symbolReferences (H := host true) 5 oddSymbol [] (start "")).1 = Ok []
  ∧ (references.FindReferences (H := host true) "odd" (start "")).1
    = ("No references found for symbol: odd", None).
Proof. repeat split; vm_compute; reflexivity. Qed.

End FindReferencesExamples.

(** ** The line-range merger *)

Section MergeRangesFacts.
Import ranges.
Local Open Scope Z_scope.
Implicit Types (r cur next : DisplayRange) (ws : list DisplayRange).

Lemma covers_cons r ws l : covers (r :: ws) l ↔ inside r l ∨ covers ws l.
Proof.
  unfold covers. split.
  - intros (r' & [->|Hin]%elem_of_cons & Hl); eauto.
  - intros [Hl|(r' & Hin & Hl)].
    + exists r. split; [left|done].
    + exists r'. split; [by right|done].
Qed.

Lemma covers_Permutation ws1 ws2 l : ws1 ≡ₚ ws2 → covers ws1 l ↔ covers ws2 l.
Proof. intros Hp. unfold covers. by setoid_rewrite Hp. Qed.

Lemma byStart_trans : Transitive byStart.
Proof. intros a b c. unfold byStart. lia. Qed.

Lemma byStart_total : Total byStart.
Proof. intros a b. unfold byStart. lia. Qed.

Lemma clamp_bounds totalLines x : 1 ≤ totalLines → 1 ≤ clamp totalLines x ≤ totalLines.
Proof. unfold clamp. lia. Qed.

Lemma clamp_mono totalLines x y : x ≤ y → clamp totalLines x ≤ clamp totalLines y.
Proof. unfold clamp. lia. Qed.

Lemma window_within totalLines context L :
  1 ≤ totalLines → 0 ≤ context → within totalLines (window totalLines context L).
Proof.
  intros Ht Hc. unfold within, window; simpl.
  pose proof (clamp_bounds totalLines (L - context) Ht).
  pose proof (clamp_bounds totalLines (L + context) Ht).
  pose proof (clamp_mono totalLines (L - context) (L + context)). lia.
Qed.

(** For a point line of the file the window is the usual one. *)
Lemma window_of_line totalLines context L :
  1 ≤ L ≤ totalLines → 0 ≤ context →
  window totalLines context L
  = {| startLine := 1 `max` (L - context); endLine := totalLines `min` (L + context) |}.
Proof. intros HL Hc. unfold window, clamp. f_equal; lia. Qed.

Lemma mergeInto_head cur ws :
  ∃ r rest, mergeInto cur ws = r :: rest ∧ startLine r = startLine cur.
Proof.
  revert cur. induction ws as [|next ws IH]; intros cur; simpl; [eauto|].
  case_decide; [|eauto]. destruct (IH {| startLine := startLine cur;
    endLine := endLine cur `max` endLine next |}) as (r & rest & -> & Hr). eauto.
Qed.

Lemma sorted_replace_head cur cur' ws :
  startLine cur' = startLine cur →
  StronglySorted byStart (cur :: ws) → StronglySorted byStart (cur' :: ws).
Proof.
  intros Hs [Hws Hall]%StronglySorted_inv. constructor; [done|].
  eapply Forall_impl; [done|]. unfold byStart. intros w. lia.
Qed.

Lemma sorted_drop_second cur next ws :
  StronglySorted byStart (cur :: next :: ws) → StronglySorted byStart (cur :: ws).
Proof.
  intros [[Hws _]%StronglySorted_inv [_ Hall]%Forall_cons]%StronglySorted_inv.
  by constructor.
Qed.

Lemma mergeInto_covers ws cur l :
  startLine cur ≤ endLine cur →
  Forall (λ w, startLine w ≤ endLine w) ws →
  StronglySorted byStart (cur :: ws) →
  covers (mergeInto cur ws) l ↔ inside cur l ∨ covers ws l.
Proof.
  revert cur. induction ws as [|next ws IH]; intros cur Hcur Hne Hs; simpl.
  - rewrite covers_cons. reflexivity.
  - apply Forall_cons in Hne as [Hnext Hne].
    assert (startLine cur ≤ startLine next) as Hcn.
    { apply StronglySorted_inv in Hs as [_ [Hcn _]%Forall_cons]. done. }
    rewrite (covers_cons next). case_decide as Hadj.
    + rewrite IH; [|simpl; lia|done|].
      * unfold inside; simpl. split.
        -- intros [Hl|Hl]; [|by auto]. lia.
        -- intros [Hl|[Hl|Hl]]; [left; lia|left; lia|by right].
      * eapply sorted_replace_head; [|by eapply sorted_drop_second]. done.
    + rewrite covers_cons, IH; [done|done|done|].
      by apply StronglySorted_inv in Hs as [Hs _].
Qed.

Lemma mergeInto_apart ws cur :
  Sorted apart (mergeInto cur ws).
Proof.
  revert cur. induction ws as [|next ws IH]; intros cur; simpl.
  - repeat constructor.
  - case_decide as Hadj; [apply IH|]. constructor; [apply IH|].
    destruct (mergeInto_head next ws) as (r & rest & -> & Hr).
    constructor. unfold apart. lia.
Qed.

Lemma mergeInto_within totalLines ws cur :
  within totalLines cur → Forall (within totalLines) ws →
  Forall (within totalLines) (mergeInto cur ws).
Proof.
  revert cur. induction ws as [|next ws IH]; intros cur Hcur Hws; simpl.
  - by constructor.
  - apply Forall_cons in Hws as [Hnext Hws]. case_decide.
    + apply IH; [|done]. unfold within in *; simpl. lia.
    + constructor; [done|]. by apply IH.
Qed.

(** C2: with at least one line and a context that is not negative, the
    ranges of MergeRanges show exactly the lines of the windows of the
    points, each window being [L - context, L + context] clamped to
    [1, totalLines]; they are in ascending order with at least one line
    that is not shown between two consecutive ones, and each lies within
    the file; and the three examples of the specification hold. *)
Theorem MergeRanges_spec (points : list Z) (totalLines context : Z) :
  1 ≤ totalLines → 0 ≤ context →
  (∀ L, 1 ≤ L ≤ totalLines →
     window totalLines context L
     = {| startLine := 1 `max` (L - context);
          endLine := totalLines `min` (L + context) |})
  ∧ (∀ l, covers (MergeRanges points totalLines context) l
          ↔ ∃ L, L ∈ points ∧ inside (window totalLines context L) l)
  ∧ Sorted apart (MergeRanges points totalLines context)
  ∧ Forall (within totalLines) (MergeRanges points totalLines context)
  ∧ MergeRanges [10] 100 5 = [{| startLine := 5; endLine := 15 |}]
  ∧ MergeRanges [10; 12] 100 1 = [{| startLine := 9; endLine := 13 |}]
  ∧ MergeRanges [10; 50] 100 1
    = [{| startLine := 9; endLine := 11 |}; {| startLine := 49; endLine := 51 |}].
Proof.
  intros Ht Hc.
  split; [intros L HL; by apply window_of_line|].
  set (windows := window totalLines context <$> points).
  assert (Hperm : merge_sort byStart windows ≡ₚ windows)
    by apply merge_sort_Permutation.
  assert (Hsorted : StronglySorted byStart (merge_sort byStart windows))
    by apply (@StronglySorted_merge_sort _ byStart _ byStart_trans byStart_total).
  assert (Hwithin : Forall (within totalLines) (merge_sort byStart windows)).
  { rewrite Hperm. apply Forall_fmap, Forall_forall. intros L _.
    by apply window_within. }
  assert (Hcov : ∀ l, covers windows l
                      ↔ ∃ L, L ∈ points ∧ inside (window totalLines context L) l).
  { intros l. unfold covers, windows. split.
    - intros (r & (L & -> & HL)%list_elem_of_fmap & Hl). eauto.
    - intros (L & HL & Hl). exists (window totalLines context L).
      split; [|done]. apply list_elem_of_fmap. eauto. }
  unfold MergeRanges. fold windows.
  split; [|split; [|split; [|by vm_compute]]].
  - intros l. rewrite <-Hcov, <-(covers_Permutation _ _ l Hperm).
    destruct (merge_sort byStart windows) as [|cur ws]; [done|]. simpl.
    apply Forall_cons in Hwithin as [Hcur Hws].
    rewrite mergeInto_covers, covers_cons; [done| | |done].
    + unfold within in Hcur. lia.
    + eapply Forall_impl; [done|]. unfold within. intros w. lia.
  - destruct (merge_sort byStart windows) as [|cur ws]; [constructor|].
    apply mergeInto_apart.
  - destruct (merge_sort byStart windows) as [|cur ws]; [constructor|].
    apply Forall_cons in Hwithin as [Hcur Hws]. by apply mergeInto_within.
Qed.

(** The clamping examples of the specification. *)
Example MergeRanges_clamping :
  MergeRanges [2] 100 5 = [{| startLine := 1; endLine := 7 |}]
  ∧ MergeRanges [99] 100 5 = [{| startLine := 94; endLine := 100 |}]
  ∧ MergeRanges [12; 10; 12] 100 1 = MergeRanges [10; 12] 100 1.
Proof. repeat split; vm_compute; reflexivity. Qed.

Lemma MergeRanges_spec_witness :
  covers (MergeRanges [2; 99; 97] 100 5) 94
  ∧ Sorted apart (MergeRanges [2; 99; 97] 100 5)
  ∧ Forall (within 100) (MergeRanges [2; 99; 97] 100 5).
Proof.
  destruct (MergeRanges_spec [2; 99; 97] 100 5) as (_ & Hcov & Hsorted & Hwithin & _);
    [lia..|].
  split; [|done]. apply Hcov. exists 99. split; [by right; left|].
  vm_compute. split; discriminate.
Defined.

End MergeRangesFacts.

(** ** The clangd warm-up *)

Section InitializeFacts.
Context {W : Type} {C : Client W} {L : Logger W} {F : clangd.FileSystem W}.

Lemma warmupClangdStaticIndex_no_error (w : W) :
  (clangd.warmupClangdStaticIndex w).1 = None.
Proof.
  unfold clangd.warmupClangdStaticIndex.
  destruct (Symbol "::" _) as [r1 w1]. by destruct (Symbol "" _) as [r2 w2].
Qed.

(** The loop that opens the files goes through the whole list or stops at
    the cap, whatever [OpenFile] answers, and opens at most
    [maxFilesToOpen] files. *)
Lemma openFiles_count (cppFiles : list string) (fileCount : Z) (w : W) :
  (fileCount ≤ clangd.maxFilesToOpen)%Z →
  (fileCount ≤ (clangd.openFiles cppFiles fileCount w).1 ≤ clangd.maxFilesToOpen)%Z.
Proof.
  revert fileCount w. induction cppFiles as [|filePath cppFiles IH];
    intros fileCount w Hle; simpl; [lia|].
  case_decide as Hcap; [simpl; lia|].
  destruct (OpenFile filePath w) as [[err|] w1].
  - apply IH. lia.
  - specialize (IH (fileCount + 1)%Z (Debug ("Opened core C++ file: " +:+ filePath) w1)).
    lia.
Qed.

(** C9: initializeClangdLanguageServer returns no error, whatever the
    workspace and the answers of the server and of the file system are. Each
    step logs a failure and goes on. In the warm-up a failed first query is
    logged as a warning and the second query is sent in the world after
    that entry; a failed second query is logged as a warning too, and the
    warm-up ends with its completion entry and no error. A file that does
    not open is logged and passed over for the next one. The files are
    opened in the world in which the warm-up ends; an error of
    openCoreCppFiles, such as a failed walk, is logged as a warning, and in
    both cases the initialization ends with the entry of its completion. *)
Theorem initializeClangdLanguageServer_no_error (workspaceDir : string) (w : W) :
  (clangd.initializeClangdLanguageServer workspaceDir w).1 = None
  ∧ (∀ w0, (clangd.warmupClangdStaticIndex w0).1 = None)
  ∧ (∀ w0 err w1 r w2,
       Symbol "::" (Info "Warming up clangd static index..." w0) = (Err err, w1) →
       Symbol "" (Warn ("First warmup symbol query failed: " +:+ err) w1) = (r, w2) →
       clangd.warmupClangdStaticIndex w0
       = (None,
          Info "Static index warmup completed"
            match r with
            | Err err2 => Warn ("Second warmup symbol query failed: " +:+ err2) w2
            | Ok _ => Debug "Second warmup symbol query completed" w2
            end))
  ∧ (∀ w0 symbolResult w1 err w2,
       Symbol "::" (Info "Warming up clangd static index..." w0)
       = (Ok symbolResult, w1) →
       Symbol "" (Debug "First warmup symbol query completed" w1) = (Err err, w2) →
       clangd.warmupClangdStaticIndex w0
       = (None,
          Info "Static index warmup completed"
            (Warn ("Second warmup symbol query failed: " +:+ err) w2)))
  ∧ (∀ filePath cppFiles fileCount w0 err w1,
       (fileCount < clangd.maxFilesToOpen)%Z →
       OpenFile filePath w0 = (Some err, w1) →
       clangd.openFiles (filePath :: cppFiles) fileCount w0
       = clangd.openFiles cppFiles fileCount
           (Warn ("Failed to open C++ file " +:+ filePath +:+ ": " +:+ err) w1))
  ∧ (∀ w1 err w2,
       (clangd.warmupClangdStaticIndex
          (Info ("Initializing Clangd language server with workspace: "
                 +:+ workspaceDir) w)).2 = w1 →
       clangd.openCoreCppFiles workspaceDir w1 = (Some err, w2) →
       clangd.initializeClangdLanguageServer workspaceDir w
       = (None,
          Info "Clangd language server initialization completed successfully"
            (Warn ("Failed to open core C++ files (continuing anyway): " +:+ err) w2)))
  ∧ (∀ w1 w2,
       (clangd.warmupClangdStaticIndex
          (Info ("Initializing Clangd language server with workspace: "
                 +:+ workspaceDir) w)).2 = w1 →
       clangd.openCoreCppFiles workspaceDir w1 = (None, w2) →
       clangd.initializeClangdLanguageServer workspaceDir w
       = (None,
          Info "Clangd language server initialization completed successfully" w2)).
Proof.
  assert (Hinit : ∀ w1 err w2,
    (clangd.warmupClangdStaticIndex
       (Info ("Initializing Clangd language server with workspace: "
              +:+ workspaceDir) w)).2 = w1 →
    clangd.openCoreCppFiles workspaceDir w1 = (err, w2) →
    clangd.initializeClangdLanguageServer workspaceDir w
    = (None,
       Info "Clangd language server initialization completed successfully"
         match err with
         | Some err =>
             Warn ("Failed to open core C++ files (continuing anyway): " +:+ err) w2
         | None => w2
         end)).
  { intros w1 err w2 Hwarm Hopen. unfold clangd.initializeClangdLanguageServer.
    pose proof (warmupClangdStaticIndex_no_error
                  (Info ("Initializing Clangd language server with workspace: "
                         +:+ workspaceDir) w)) as Hnone.
    destruct (clangd.warmupClangdStaticIndex _) as [err1 w1'].
    simpl in Hwarm, Hnone. subst w1' err1. by rewrite Hopen. }
  split; [|split; [|split; [|split; [|split; [|split]]]]].
  - unfold clangd.initializeClangdLanguageServer.
    destruct (clangd.warmupClangdStaticIndex _) as [err1 w1].
    by destruct (clangd.openCoreCppFiles workspaceDir _) as [err2 w2].
  - apply warmupClangdStaticIndex_no_error.
  - intros w0 err w1 r w2 Hfirst Hsecond. unfold clangd.warmupClangdStaticIndex.
    by rewrite Hfirst, Hsecond.
  - intros w0 symbolResult w1 err w2 Hfirst Hsecond.
    unfold clangd.warmupClangdStaticIndex. by rewrite Hfirst, Hsecond.
  - intros filePath cppFiles fileCount w0 err w1 Hcap Hopen. simpl.
    rewrite decide_False by lia. by rewrite Hopen.
  - intros w1 err w2 Hwarm Hopen. by apply (Hinit w1 (Some err) w2).
  - intros w1 w2 Hwarm Hopen. by apply (Hinit w1 None w2).
Qed.

End InitializeFacts.

Section InitializeExamples.
Import fixture.

Lemma initializeClangdLanguageServer_no_error_witness :
  clangd.warmupClangdStaticIndex (start "")
  = (None,
     Info "Static index warmup completed"
       (Warn ("Second warmup symbol query failed: " +:+ "empty query")
          (record "workspace/symbol "
             (Warn ("First warmup symbol query failed: " +:+ "index not loaded")
                (record "workspace/symbol ::"
                   (Info "Warming up clangd static index..." (start "")))))))
  ∧ clangd.openFiles ["/ws/locked.cpp"; "/ws/main.cpp"] 0 (start "")
    = clangd.openFiles ["/ws/main.cpp"] 0
        (Warn "Failed to open C++ file /ws/locked.cpp: permission denied"
           (record "didOpen /ws/locked.cpp" (start "")))
  ∧ (clangd.initializeClangdLanguageServer "/sealed" (start "")).1 = None
  ∧ last (journal (clangd.initializeClangdLanguageServer "/sealed" (start "")).2)
    = Some "INFO Clangd language server initialization completed successfully"
  ∧ filter (λ entry, Go.HasPrefix entry "didOpen" = true)
      (journal (clangd.initializeClangdLanguageServer "/ws" (start "")).2)
    = ["didOpen /ws/locked.cpp"; "didOpen /ws/main.cpp"; "didOpen /ws/src/a.cc";
       "didOpen /ws/src/c.cxx"].
Proof.
  destruct (initializeClangdLanguageServer_no_error "/sealed" (start ""))
    as (Hnone & _ & Hwarm & _ & Hopen & Hwalk & _).
  destruct (initializeClangdLanguageServer_no_error "/ws" (start ""))
    as (_ & _ & _ & _ & _ & _ & Hdone).
  split; [|split; [|split; [|split]]].
  - apply (Hwarm (start "") "index not loaded"
             (record "workspace/symbol ::"
                (Info "Warming up clangd static index..." (start "")))
             (Err "empty query")); vm_compute; reflexivity.
  - apply (Hopen "/ws/locked.cpp" ["/ws/main.cpp"] 0%Z (start "") "permission denied");
      [vm_compute; reflexivity|vm_compute; reflexivity].
  - exact Hnone.
  - erewrite Hwalk; [|reflexivity|vm_compute; reflexivity]. vm_compute. reflexivity.
  - erewrite Hdone; [|reflexivity|vm_compute; reflexivity]. vm_compute. reflexivity.
Defined.

(** Walking this workspace fails, and so do both warm-up queries; all is
    logged as warnings and the initialization succeeds. *)
Example initialize_sealed :
  (clangd.openCoreCppFiles "/sealed" (start "")).1
  = Some "error walking workspace directory: permission denied"
  ∧ clangd.initializeClangdLanguageServer "/sealed" (start "")
    = (None,
       {| lspContextLines := "";
          journal :=
            ["INFO Initializing Clangd language server with workspace: /sealed";
             "INFO Warming up clangd static index...";
             "workspace/symbol ::";
             "WARN First warmup symbol query failed: index not loaded";
             "workspace/symbol ";
             "WARN Second warmup symbol query failed: empty query";
             "INFO Static index warmup completed";
             "INFO Opening core C++ files in workspace: /sealed";
             "WARN Failed to open core C++ files (continuing anyway): error walking workspace directory: permission denied";
             "INFO Clangd language server initialization completed successfully"] |}).
Proof. split; vm_compute; reflexivity. Qed.

(** Hidden and build directories are skipped, a file that does not open is
    passed over, and three files are opened. *)
Example initialize_workspace :
  (Go.Walk clangd.PathJoin clangd.collectCpp "/ws" workspace []).2
  = ["/ws/locked.cpp"; "/ws/main.cpp"; "/ws/src/a.cc"; "/ws/src/c.cxx";
     "/ws/src/d.cpp"; "/ws/util.cpp"]
  ∧ filter (λ entry, Go.HasPrefix entry "didOpen" = true)
      (journal (clangd.initializeClangdLanguageServer "/ws" (start "")).2)
    = ["didOpen /ws/locked.cpp"; "didOpen /ws/main.cpp"; "didOpen /ws/src/a.cc";
       "didOpen /ws/src/c.cxx"].
Proof. split; vm_compute; reflexivity. Qed.

End InitializeExamples.

(** * Further properties *)

(** ** ReadDefinition *)

Section ReadDefinitionMore.
Context {W : Type} {C : Client W} {L : Logger W} {H : Host W}.
Implicit Types (symbol : WorkspaceSymbolResult) (w : W).

(** X1: ReadDefinition returns an error exactly when the symbol query or
    the decoding of its result fails; the text is then empty and no match
    has been processed. A failure at a match never makes the call fail. *)
Theorem ReadDefinition_error_iff symbolName w :
  ((definition.ReadDefinition symbolName w).1.2 = None
   ↔ ∃ symbolResult results, (Symbol symbolName w).1 = Ok symbolResult
                             ∧ Results symbolResult = Ok results)
  ∧ (∀ err, (definition.ReadDefinition symbolName w).1.2 = Some err →
       definition.ReadDefinition symbolName w
       = (("", Some err), (Symbol symbolName w).2)
       ∧ ((∃ e, (Symbol symbolName w).1 = Err e
                ∧ err = "failed to fetch symbol: " +:+ e)
          ∨ (∃ symbolResult e, (Symbol symbolName w).1 = Ok symbolResult
                               ∧ Results symbolResult = Err e
                               ∧ err = "failed to parse results: " +:+ e))).
Proof.
  unfold definition.ReadDefinition.
  destruct (Symbol symbolName w) as [[symbolResult|e] w1]; simpl.
  - destruct (Results symbolResult) as [results|e] eqn:HR; simpl.
    + destruct (definition.definitionsOf _ results [] w1) as [ds w2].
      split; [|by case_decide]. split; [by eauto|]. by case_decide.
    + split.
      * split; [done|]. intros (sr & results & [= <-] & Hr). congruence.
      * intros err [= <-]. split; [done|]. right. eauto.
  - split.
    + split; [done|]. by intros (sr & results & [=] & _).
    + intros err [= <-]. split; [done|]. left. eauto.
Qed.

(** The runs over a concatenation of result lists are those over the first
    list followed by those over the second. *)
Lemma resolves_app symbolName xs ys w kept w' :
  resolves symbolName (xs ++ ys) w kept w'
  ↔ ∃ kept1 w1 kept2,
      resolves symbolName xs w kept1 w1 ∧ resolves symbolName ys w1 kept2 w'
      ∧ kept = kept1 ++ kept2.
Proof.
  revert w kept. induction xs as [|x xs IH]; intros w kept; simpl.
  - split.
    + intros Hr. exists [], w, kept. split; [constructor|done].
    + intros (kept1 & w1 & kept2 & Hx & Hy & ->). by inversion Hx; subst.
  - split.
    + intros Hr. inversion Hr as [|? ? ? w1 ? ? E Hrest|? ? ? d w1 kept0 ? E Hrest]; subst.
      * apply IH in Hrest as (kept1 & w2 & kept2 & Hx & Hy & ->).
        exists kept1, w2, kept2. split; [by eapply resolves_skip|done].
      * apply IH in Hrest as (kept1 & w2 & kept2 & Hx & Hy & ->).
        exists ((x, d) :: kept1), w2, kept2. split; [by eapply resolves_keep|done].
    + intros (kept1 & w1 & kept2 & Hx & Hy & ->).
      inversion Hx as [|? ? ? w2 ? ? E Hrest|? ? ? d w2 kept0 ? E Hrest]; subst.
      * eapply resolves_skip; [done|]. apply IH. eauto 6.
      * simpl. eapply resolves_keep; [done|]. apply IH. eauto 6.
Qed.

(** X2: the loop of ReadDefinition over a concatenation of two result
    lists collects the blocks of the first list, in the order of the list,
    followed by the blocks that the loop over the second list collects when
    it starts in the world in which the first one ends; blocks collected
    before are kept as they are, in front. *)
Theorem definitionsOf_concat symbolName xs ys definitions w :
  definition.definitionsOf symbolName (xs ++ ys) definitions w
  = (definitions
       ++ (definition.definitionsOf symbolName xs [] w).1
       ++ (definition.definitionsOf symbolName ys []
             (definition.definitionsOf symbolName xs [] w).2).1,
     (definition.definitionsOf symbolName ys []
        (definition.definitionsOf symbolName xs [] w).2).2).
Proof.
  assert (Hacc : ∀ zs ds w0,
            definition.definitionsOf symbolName zs ds w0
            = (ds ++ (definition.definitionsOf symbolName zs [] w0).1,
               (definition.definitionsOf symbolName zs [] w0).2)).
  { intros zs ds w0. destruct (resolves_total symbolName zs w0) as (kept & w' & Hr).
    by rewrite !(resolves_definitionsOf _ _ _ _ _ _ Hr). }
  rewrite definitionsOf_app, (Hacc xs definitions w). simpl.
  rewrite (Hacc ys (definitions ++ _)). by rewrite <-app_assoc.
Qed.

(** X3: a match whose definition cannot be expanded is logged and left
    out, and the report is made of the blocks of the matches before and
    after it. *)
Theorem ReadDefinition_skips_failed_definition symbolName w symbolResult w1
    before symbol after kept1 w2 w3 text loc err w4 kept2 w5 :
  Symbol symbolName w = (Ok symbolResult, w1) →
  Results symbolResult = Ok (before ++ symbol :: after) →
  resolves symbolName before w1 kept1 w2 →
  isRich symbol ∨ GetName symbol = symbolName →
  OpenFile (Path (URI (GetLocation symbol)))
           (Debug ("Found symbol: " +:+ GetName symbol) w2) = (None, w3) →
  GetFullDefinition (GetLocation symbol) w3 = ((text, loc, Some err), w4) →
  resolves symbolName after (Error ("Error getting definition: " +:+ err) w4) kept2 w5 →
  definition.ReadDefinition symbolName w
  = ((if decide (kept1 ++ kept2 = []) then symbolName +:+ " not found"
      else String.concat "" (kept1 ++ kept2).*2, None), w5).
Proof.
  intros HS HR Hbefore Hkeep Hopen Hdef Hafter.
  assert (Hnone : definition.definitionOf symbolName symbol w2
                  = (None, Error ("Error getting definition: " +:+ err) w4)).
  { unfold definition.definitionOf.
    assert (∃ kc, definition.switchOnType symbolName symbol = Some kc) as [[k c] ->].
    { destruct Hkeep as [Hr| <-]; [rewrite switchOnType_rich by done; eauto|].
      destruct symbol as [v|v|name loc']; [rewrite switchOnType_rich by done; eauto..|].
      rewrite switchOnType_other. simpl. rewrite decide_False by naive_solver. eauto. }
    by rewrite Hopen, Hdef. }
  assert (Hall : resolves symbolName (before ++ symbol :: after) w1 (kept1 ++ kept2) w5).
  { apply resolves_app. exists kept1, w2, kept2. split; [done|]. split; [|done].
    by eapply resolves_skip. }
  unfold definition.ReadDefinition. rewrite HS, HR.
  rewrite (resolves_definitionsOf _ _ _ _ _ [] Hall). simpl.
  destruct (kept1 ++ kept2) as [|kd kept]; [done|].
  rewrite decide_False by (simpl; lia). by rewrite decide_False.
Qed.

Lemma sprintf_percent (format : string) (args : list Go.Arg) :
  Go.sprintf ("%%" +:+ format) args = String.app "%" <$> Go.sprintf format args.
Proof. reflexivity. Qed.

(** X4: the container name is part of the format of the block, so a
    doubled [%] in it is printed as a single one: the Container Name line
    of the block is not the name that the backend sent. *)
Theorem ReadDefinition_percent_in_container symbolName symbol w w1 text loc w2 a b :
  isRich symbol →
  containerOf symbol = a +:+ "%%" +:+ b →
  noVerb a = true → noVerb b = true →
  noVerb (TableKindMap (kindOf symbol)) = true →
  OpenFile (Path (URI (GetLocation symbol)))
           (Debug ("Found symbol: " +:+ GetName symbol) w) = (None, w1) →
  GetFullDefinition (GetLocation symbol) w1 = ((text, loc, None), w2) →
  definition.definitionOf symbolName symbol w
  = (Some ("---" +:+ LF +:+ LF +:+
           "Symbol: " +:+ GetName symbol +:+ LF +:+
           "File: " +:+ Go.TrimPrefix (URI loc) "file://" +:+ LF +:+
           "Kind: " +:+ TableKindMap (kindOf symbol) +:+ LF +:+
           "Container Name: " +:+ a +:+ "%" +:+ b +:+ LF +:+
           rangeLine loc +:+ LF +:+
           addLineNumbers text (Line (Start (Range loc)) + 1)%Z +:+ LF), w2).
Proof.
  intros Hrich Hcont Ha Hb Hk Hopen Hdef.
  assert (Hne : containerOf symbol ≠ "").
  { rewrite Hcont. intros Hnil. apply (f_equal String.length) in Hnil.
    rewrite !append_length in Hnil. simpl in Hnil. lia. }
  unfold definition.definitionOf. rewrite switchOnType_rich by done.
  rewrite Hopen, Hdef.
  assert (kindLine symbol = "Kind: " +:+ TableKindMap (kindOf symbol) +:+ LF) as ->.
  { unfold kindLine. destruct symbol as [v|v|]; [done| |done]. simpl in *.
    by rewrite bool_decide_true. }
  assert (containerLine symbol = "Container Name: " +:+ containerOf symbol +:+ LF) as ->.
  { unfold containerLine, hasContainerLine. by rewrite bool_decide_true. }
  rewrite Hcont. unfold definition.locationInfo, Sprintf.
  change ("Symbol: %s" +:+ ?f) with ("Symbol: " +:+ "%s" +:+ f).
  rewrite sprintf_plain, sprintf_s by done.
  rewrite (sprintf_plain LF) by done.
  change ("File: %s" +:+ ?f) with ("File: " +:+ "%s" +:+ f).
  rewrite sprintf_plain, sprintf_s by done.
  rewrite (sprintf_plain LF) by done.
  rewrite !append_assoc.
  rewrite (sprintf_plain "Kind: "), (sprintf_plain (TableKindMap _)),
    (sprintf_plain LF), (sprintf_plain "Container Name: "), (sprintf_plain a),
    sprintf_percent, (sprintf_plain b), (sprintf_plain LF) by done.
  change ("Range: L%d:C%d - L%d:C%d" +:+ ?f)
    with ("Range: L" +:+ "%d" +:+ ":C" +:+ "%d" +:+ " - L" +:+ "%d" +:+ ":C" +:+ "%d" +:+ f).
  rewrite sprintf_plain, sprintf_d by done.
  rewrite sprintf_plain, sprintf_d by done.
  rewrite sprintf_plain, sprintf_d by done.
  rewrite sprintf_plain, sprintf_d by done.
  rewrite (sprintf_plain LF) by done.
  change (Go.sprintf LF []) with (Some LF).
  simpl. unfold rangeLine. by rewrite !append_assoc.
Qed.

End ReadDefinitionMore.

(** ** FindReferences *)

(** *** Strings *)

Lemma HasPrefix_app (p s : string) : Go.HasPrefix (p +:+ s) p = true.
Proof.
  unfold Go.HasPrefix, Go.len. rewrite append_length.
  apply andb_true_iff. split; [apply Nat.leb_le; lia|].
  apply String.eqb_eq. induction p as [|a p IH]; [by destruct s|].
  rewrite append_cons. simpl. by rewrite IH.
Qed.

Lemma from_app (p s : string) : Go.from (Go.len p) (p +:+ s) = s.
Proof. induction p as [|a p IH]; [done|]. by rewrite append_cons. Qed.

Lemma upto_from (n : nat) (s : string) : Go.upto n s +:+ Go.from n s = s.
Proof.
  revert s. induction n as [|n IH]; intros [|a s]; [done..|].
  simpl. by rewrite append_cons, IH.
Qed.

(** X5: [strings.TrimPrefix] removes the prefix once when the string
    starts with it and leaves any other string as it is; what it returns,
    after the prefix if it removed one, is the string it was given. *)
Theorem TrimPrefix_spec (s prefix : string) :
  Go.TrimPrefix (prefix +:+ s) prefix = s
  ∧ (Go.HasPrefix s prefix = false → Go.TrimPrefix s prefix = s)
  ∧ (Go.HasPrefix s prefix = true → prefix +:+ Go.TrimPrefix s prefix = s).
Proof.
  unfold Go.TrimPrefix. split; [|split].
  - by rewrite HasPrefix_app, from_app.
  - by intros ->.
  - intros Hp. rewrite Hp. unfold Go.HasPrefix in Hp.
    apply andb_true_iff in Hp as [_ Heq]. apply String.eqb_eq in Heq.
    rewrite <-Heq at 1. apply upto_from.
Qed.

Lemma SplitLines_cons_inv (s : string) : ∃ l ls, Go.SplitLines s = l :: ls.
Proof.
  destruct s as [|a s]; simpl; [eauto|].
  destruct (Ascii.eqb _ _); [eauto|]. destruct (Go.SplitLines s); eauto.
Qed.

(** X6: splitting a file content at the line feeds gives one line more
    than there are line feeds, so at least one line also for an empty file,
    and joining the lines with line feeds gives the content back. *)
Theorem SplitLines_spec (s : string) :
  length (Go.SplitLines s) = S (lineFeeds s)
  ∧ Go.Join (Go.SplitLines s) LF = s.
Proof.
  induction s as [|a s [IHlen IHjoin]]; [done|]. simpl.
  destruct (Ascii.eqb a (ascii_of_nat 10)) eqn:Ha.
  - apply Ascii.eqb_eq in Ha as ->. simpl. split; [by rewrite IHlen|].
    unfold Go.Join in *. simpl.
    destruct (SplitLines_cons_inv s) as (l & ls & Hs). rewrite Hs in *.
    by rewrite IHjoin.
  - destruct (SplitLines_cons_inv s) as (l & ls & Hs). rewrite Hs in *.
    simpl in *. split; [done|]. unfold Go.Join in *. simpl in *.
    destruct ls; [by rewrite IHjoin|]. rewrite append_cons. by rewrite IHjoin.
Qed.

Section FindReferencesMore.
Context {W : Type} {C : Client W} {L : Logger W} {H : Host W}.
Implicit Types (symbol : WorkspaceSymbolResult) (w : W).

Lemma sortedURIs_nil : references.sortedURIs (references.groupByFile []) = [].
Proof. reflexivity. Qed.

(** X7: when every match either fails to open or has no reference, and in
    particular when there is no match, FindReferences returns the text
    [No references found for symbol: <query>] and no error. *)
Theorem FindReferences_no_references symbolName w symbolResult w1 results :
  Symbol symbolName w = (Ok symbolResult, w1) →
  Results symbolResult = Ok results →
  (∀ symbol w2, symbol ∈ results →
     (OpenFile (Path (URI (GetLocation symbol))) w2).1 ≠ None
     ∨ (References (references.refsParamsOf (GetLocation symbol))
          (OpenFile (Path (URI (GetLocation symbol))) w2).2).1 = Ok []) →
  (references.FindReferences symbolName w).1
  = ("No references found for symbol: " +:+ symbolName, None).
Proof.
  intros HS HR Hnone. unfold references.FindReferences. rewrite HS, HR.
  set (contextLines := references.contextLinesOf _).
  assert (Hloop : ∀ w2, ∃ w3,
            references.allReferencesOf contextLines results [] w2 = (Ok [], w3)).
  { clear HS HR. induction results as [|symbol results IH]; intros w2; simpl; [eauto|].
    assert (∃ w3, references.symbolReferences contextLines symbol [] w2 = (Ok [], w3))
      as [w3 ->].
    { unfold references.symbolReferences.
      destruct (Hnone symbol w2 ltac:(left)) as [Hopen|Hrefs].
      - destruct (OpenFile _ w2) as [[err|] w3]; [eauto|done].
      - destruct (OpenFile _ w2) as [[err|] w3]; [eauto|]. simpl in Hrefs.
        destruct (References _ w3) as [r w4]. simpl in Hrefs. subst r.
        rewrite sortedURIs_nil. simpl. eauto. }
    apply IH. intros s w4 Hs. apply Hnone. by right. }
  destruct (Hloop w1) as [w3 ->]. done.
Qed.

(** X8: when FindReferences returns no error, its text is made of the
    blocks collected by the loop, in the order in which they were
    collected: the blocks of a first part of the matches stay as they are,
    in front of the blocks that the rest of the matches add; the text is
    these blocks joined by line feeds, or the text for no reference when
    there is no block; and every block begins with the banner, the path of
    a file and the header line with a count. *)
Theorem FindReferences_report_shape symbolName w symbolResult w1 before after
    collected w2 out w' :
  let contextLines := references.contextLinesOf (Getenv "LSP_CONTEXT_LINES" w) in
  Symbol symbolName w = (Ok symbolResult, w1) →
  Results symbolResult = Ok (before ++ after) →
  references.allReferencesOf contextLines before [] w1 = (Ok collected, w2) →
  references.FindReferences symbolName w = ((out, None), w') →
  ∃ added,
    references.allReferencesOf contextLines after collected w2
    = (Ok (collected ++ added), w')
    ∧ out = (if decide (collected ++ added = [])
             then "No references found for symbol: " +:+ symbolName
             else Go.Join (collected ++ added) LF)
    ∧ Forall (λ block, ∃ filePath (count : nat) rest,
                block = "---" +:+ LF +:+ LF +:+ filePath +:+ LF +:+
                        "References in File: " +:+ pretty count +:+ LF +:+ rest)
             (collected ++ added).
Proof.
  intros contextLines HS HR Hbefore. unfold references.FindReferences.
  rewrite HS, HR. fold contextLines. rewrite allReferencesOf_app, Hbefore.
  destruct (references.allReferencesOf contextLines after collected w2)
    as [[final|e] w3] eqn:Hafter; [|done].
  pose proof Hafter as (added & -> & Hadded)%allReferencesOf_appends.
  pose proof Hbefore as (blocks & Hcollected & Hblocks)%allReferencesOf_appends.
  simpl in Hcollected. subst blocks.
  intros Hout. exists added.
  assert (w3 = w' ∧ out = if decide (collected ++ added = [])
                          then "No references found for symbol: " +:+ symbolName
                          else Go.Join (collected ++ added) LF) as [-> ->].
  { destruct (collected ++ added) as [|b bs]; simpl in Hout.
    - by injection Hout as <- <-.
    - by injection Hout as <- <-. }
  split; [done|]. split; [done|].
  apply Forall_app. split; (eapply Forall_impl; [done|]);
    intros block (filePath & count & rest & ->);
    exists filePath, count, rest; unfold references.fileInfoOf;
    by rewrite !append_assoc.
Qed.

(** X9: the loop of FindReferences looks at the location of a match only:
    neither the name nor the type of a match is used, and no match is left
    out for its name. *)
Theorem allReferencesOf_locations_only contextLines results results' allReferences w :
  GetLocation <$> results = GetLocation <$> results' →
  references.allReferencesOf contextLines results allReferences w
  = references.allReferencesOf contextLines results' allReferences w.
Proof.
  revert results' allReferences w.
  induction results as [|symbol results IH]; intros [|symbol' results'] allReferences w;
    [done..|].
  intros [= Hloc Hrest]. simpl.
  assert (references.symbolReferences contextLines symbol allReferences w
          = references.symbolReferences contextLines symbol' allReferences w) as ->.
  { unfold references.symbolReferences. by rewrite Hloc. }
  destruct (references.symbolReferences contextLines symbol' allReferences w)
    as [[refs|err] w1]; [by apply IH|done].
Qed.

(** X10: for each file of a match the group of references is not empty, so
    the line of positions is always there: when the file is read and its
    display ranges are computed, the block is the header with a count of at
    least 1, the positions of the references of the file in the order of
    the backend, an empty line and the formatted lines. *)
Theorem fileBlock_shape contextLines refs uriStr w fileContent w1 linesToShow w2 :
  let fileRefs := filter (λ ref, URI ref = uriStr) refs in
  let filePath := Go.TrimPrefix uriStr "file://" in
  let lines := Go.SplitLines fileContent in
  uriStr ∈ references.sortedURIs (references.groupByFile refs) →
  ReadFile filePath w = (Ok fileContent, w1) →
  GetLineRangesToDisplay fileRefs (Z.of_nat (length lines)) contextLines w1
  = (Ok linesToShow, w2) →
  1 ≤ length fileRefs
  ∧ references.fileBlock contextLines (references.groupByFile refs) uriStr w
    = (Some (references.fileInfoOf filePath (length fileRefs) +:+
             "At: " +:+ Go.Join (references.locStr <$> fileRefs) ", " +:+ LF +:+
             LF +:+
             FormatLinesWithRanges lines
               (ConvertLinesToRanges linesToShow (Z.of_nat (length lines)))), w2).
Proof.
  intros fileRefs filePath lines Hin Hread Hranges.
  assert (Hlen : 1 ≤ length fileRefs).
  { unfold references.sortedURIs in Hin.
    rewrite sortStrings_Permutation in Hin.
    apply elem_of_keys in Hin as (ref & Href & Huri).
    assert (ref ∈ fileRefs) as Hmem by (by apply list_elem_of_filter).
    destruct fileRefs; [by apply elem_of_nil in Hmem|simpl; lia]. }
  split; [done|]. unfold references.fileBlock.
  rewrite groupByFile_default. fold fileRefs filePath. rewrite Hread.
  fold lines. rewrite Hranges. rewrite length_fmap.
  rewrite decide_True by lia. by rewrite !append_assoc.
Qed.

End FindReferencesMore.

Section IterationOrder.

(** X11: the files of a match are the distinct URIs of its references in
    ascending order, whatever the order is in which the [range] loop yields
    the keys of the map. *)
Theorem sortedURIs_distinct_sorted (refs : list Location) (order : list string) :
  order ≡ₚ references.keys (references.groupByFile refs) →
  references.sortStrings order
  = references.sortStrings (remove_dups (URI <$> refs))
  ∧ references.sortedURIs (references.groupByFile refs)
    = references.sortStrings (remove_dups (URI <$> refs)).
Proof.
  intros Horder.
  assert (Hdups : remove_dups (URI <$> refs)
                  ≡ₚ references.keys (references.groupByFile refs)).
  { apply NoDup_Permutation; [apply NoDup_remove_dups|apply NoDup_keys|].
    intros u. rewrite elem_of_remove_dups, list_elem_of_fmap, elem_of_keys.
    split; [intros (ref & -> & Hin)|intros (ref & Hin & <-)]; eauto. }
  rewrite (sortedURIs_any_order _ _ Horder), (sortedURIs_any_order _ _ Hdups). done.
Qed.

End IterationOrder.

(** ** filepath.Walk *)

Lemma FsNode_induction (P : Go.FsNode → Prop) :
  (∀ name, P (Go.FsFile name)) →
  (∀ name err, P (Go.FsBroken name err)) →
  (∀ name err, P (Go.FsDir name (Err err))) →
  (∀ name children, Forall P children → P (Go.FsDir name (Ok children))) →
  ∀ node, P node.
Proof.
  intros Hfile Hbroken Hsealed Hdir.
  fix IH 1. intros [name|name [children|err]|name err].
  - apply Hfile.
  - apply Hdir.
    refine ((fix all (l : list Go.FsNode) : Forall P l :=
               match l with
               | [] => @List.Forall_nil _ P
               | child :: l' => @List.Forall_cons _ P child l' (IH child) (all l')
               end) children).
  - apply Hsealed.
  - apply Hbroken.
Qed.

Section WalkFacts.
Context {S : Type}.
Context (join : string → string → string).
Implicit Types (fn : string → option Go.FileInfo → option Go.WalkErr → S
                     → option Go.WalkErr * S).

Lemma walk_dir fn path name children s :
  Go.walk join fn path (Go.FsDir name (Ok children)) s
  = let '(err1, s1) := fn path (Some {| Go.IsDir := true |}) None s in
    match err1 with
    | None => walkEntries join fn path children s1
    | Some _ => (err1, s1)
    end.
Proof.
  simpl. destruct (fn path _ None s) as [[err1|] s1]; [done|].
  revert s1. induction children as [|child children IH]; intros s1; [done|].
  simpl. destruct (Go.walk join fn _ child s1) as [err s2].
  destruct (Go.stops child err); [done|]. apply IH.
Qed.

(** X12: [walk] gives the function a nil [info] only together with an
    error, so the function of openCoreCppFiles never asks a nil [info]
    whether it is a directory: two functions that agree on all other
    arguments give the same walk. *)
Theorem walk_never_nil_info fn fn' path node s :
  (∀ p info err s', is_Some info ∨ is_Some err → fn p info err s' = fn' p info err s') →
  Go.walk join fn path node s = Go.walk join fn' path node s.
Proof.
  intros Hagree. revert path s.
  induction node as [name|name err|name err|name children IH] using FsNode_induction;
    intros path s.
  - simpl. apply Hagree. left. eauto.
  - simpl. apply Hagree. right. eauto.
  - simpl. rewrite Hagree by (left; eauto). done.
  - rewrite !walk_dir. rewrite Hagree by (left; eauto).
    destruct (fn' path _ None s) as [[err1|] s1]; [done|].
    revert s1. induction IH as [|child children Hchild _ IHl]; intros s1; [done|].
    simpl. rewrite Hchild. destruct (Go.walk join fn' _ child s1) as [err s2].
    destruct (Go.stops child err); [done|]. apply IHl.
Qed.

End WalkFacts.

Section CollectFacts.
Context {W : Type} {C : Client W} {L : Logger W} {F : clangd.FileSystem W}.
Context (join : string → string → string).
Implicit Types (files : list string) (node : Go.FsNode).

Lemma walkEntries_app {S : Type}
    (fn : string → option Go.FileInfo → option Go.WalkErr → S → option Go.WalkErr * S)
    path (xs ys : list Go.FsNode) (s : S) :
  walkEntries join fn path (xs ++ ys) s
  = match walkEntries join fn path xs s with
    | (None, s1) => walkEntries join fn path ys s1
    | (Some err, s1) => (Some err, s1)
    end.
Proof.
  revert s. induction xs as [|x xs IH]; intros s; [done|]. simpl.
  destruct (Go.walk join fn _ x s) as [err s1].
  destruct (Go.stops x err) eqn:Hstop; [|apply IH].
  destruct err; [done|]. by destruct x.
Qed.

Lemma walkEntries_cons {S : Type}
    (fn : string → option Go.FileInfo → option Go.WalkErr → S → option Go.WalkErr * S)
    path child (children : list Go.FsNode) (s : S) :
  walkEntries join fn path (child :: children) s
  = let '(err, s1) := Go.walk join fn (join path (Go.nodeName child)) child s in
    if Go.stops child err then (err, s1) else walkEntries join fn path children s1.
Proof. reflexivity. Qed.

Lemma collectCpp_appends path info err files :
  ∃ added, (clangd.collectCpp path info err files).2 = files ++ added
           ∧ Forall (λ p, cppSource p = true) added.
Proof.
  unfold clangd.collectCpp.
  destruct err as [err|]; [exists []; by rewrite app_nil_r|].
  destruct info as [[[]]|]; simpl.
  - exists []. rewrite app_nil_r. by destruct (_ || _ || _).
  - fold (cppSource path). destruct (cppSource path) eqn:Hsrc; simpl.
    + exists [path]. split; [done|]. by constructor.
    + exists []. by rewrite app_nil_r.
  - exists []. by rewrite app_nil_r.
Qed.

(** X13: the walk only appends to the list of files, and every path it
    appends ends in [.cpp], [.cxx] or [.cc]. *)
Theorem walk_collects_sources node path files :
  ∃ added,
    (Go.walk join clangd.collectCpp path node files).2 = files ++ added
    ∧ Forall (λ p, cppSource p = true) added.
Proof.
  revert path files.
  induction node as [name|name err|name err|name children IH] using FsNode_induction;
    intros path files.
  - apply collectCpp_appends.
  - apply collectCpp_appends.
  - exists []. by rewrite app_nil_r.
  - rewrite walk_dir.
    destruct (collectCpp_appends path (Some {| Go.IsDir := true |}) None files)
      as (added & Hadd & Hsrc).
    destruct (clangd.collectCpp _ _ None files) as [[err1|] files1]; simpl in Hadd;
      [by eauto|].
    subst files1.
    cut (∀ acc, Forall (λ p, cppSource p = true) acc →
           ∃ added', (walkEntries join clangd.collectCpp path children (files ++ acc)).2
                     = files ++ added'
                     ∧ Forall (λ p, cppSource p = true) added').
    { intros Hloop. by apply Hloop. }
    induction IH as [|child children Hchild _ IHl]; intros acc Hacc; simpl; [by eauto|].
    destruct (Hchild (join path (Go.nodeName child)) (files ++ acc))
      as (added1 & Hadd1 & Hsrc1).
    destruct (Go.walk join clangd.collectCpp _ child (files ++ acc)) as [err s1].
    simpl in Hadd1. subst s1.
    destruct (Go.stops child err).
    + exists (acc ++ added1). simpl. rewrite app_assoc. split; [done|].
      by apply Forall_app.
    + rewrite <-app_assoc. apply IHl. by apply Forall_app.
Qed.

(** A directory that is read and has a skipped name is not entered. *)
Lemma walk_skipped_dir path name children files :
  skippedDir path = true →
  Go.walk join clangd.collectCpp path (Go.FsDir name (Ok children)) files
  = (Some Go.SkipDir, files).
Proof.
  intros Hskip. rewrite walk_dir. unfold clangd.collectCpp. simpl.
  unfold skippedDir in Hskip. cbv zeta in Hskip. by rewrite Hskip.
Qed.

(** A directory that cannot be read ends the walk with its error, whatever
    its name. *)
Lemma walk_sealed_dir path name err files :
  Go.walk join clangd.collectCpp path (Go.FsDir name (Err err)) files
  = (Some (Go.WalkError err), files).
Proof. reflexivity. Qed.

(** X14: a readable directory with a skipped name contributes nothing: the
    walk of its parent is the walk of the parent without it. *)
Theorem walk_prunes_skipped path name before dir sub after files :
  skippedDir (join path dir) = true →
  Go.walk join clangd.collectCpp path
    (Go.FsDir name (Ok (before ++ Go.FsDir dir (Ok sub) :: after))) files
  = Go.walk join clangd.collectCpp path (Go.FsDir name (Ok (before ++ after))) files.
Proof.
  intros Hskip. rewrite !walk_dir.
  destruct (clangd.collectCpp path _ None files) as [[err1|] files1]; [done|].
  rewrite !walkEntries_app.
  destruct (walkEntries join clangd.collectCpp path before files1) as [[err|] s1];
    [done|].
  by rewrite walkEntries_cons, walk_skipped_dir.
Qed.

End CollectFacts.

Section OpenCoreFacts.
Context {W : Type} {C : Client W} {L : Logger W} {F : clangd.FileSystem W}.

(** X15: when the workspace directory itself has a skipped name, no file is
    collected or opened, and openCoreCppFiles reports no error. *)
Theorem openCoreCppFiles_skipped_root workspaceDir w name children :
  let w0 := Info ("Opening core C++ files in workspace: " +:+ workspaceDir) w in
  clangd.Tree workspaceDir w0 = Go.FsDir name (Ok children) →
  skippedDir workspaceDir = true →
  clangd.openCoreCppFiles workspaceDir w
  = (None, Info ("Opened " +:+ pretty 0%Z +:+ " core C++ files") w0).
Proof.
  intros w0 Htree Hskip. unfold clangd.openCoreCppFiles, Go.Walk. fold w0.
  by rewrite Htree, walk_skipped_dir.
Qed.

(** X16: when openCoreCppFiles fails, the error is the one of the walk, and
    no file has been opened: the world is the one after the first log
    entry, also when the walk had collected files before it failed. *)
Theorem openCoreCppFiles_error workspaceDir w err w' :
  clangd.openCoreCppFiles workspaceDir w = (Some err, w') →
  w' = Info ("Opening core C++ files in workspace: " +:+ workspaceDir) w
  ∧ ∃ e files,
      Go.Walk clangd.PathJoin clangd.collectCpp workspaceDir
        (clangd.Tree workspaceDir w') [] = (Some e, files)
      ∧ err = "error walking workspace directory: " +:+ e.
Proof.
  unfold clangd.openCoreCppFiles.
  destruct (Go.Walk _ _ _ _ _) as [[e|] files] eqn:Hwalk.
  - intros [= <- <-]. split; [done|]. by exists e, files.
  - by destruct (clangd.openFiles _ _ _).
Qed.

(** X17: a directory of the workspace that cannot be read makes
    openCoreCppFiles fail, whatever its name is, once the walk reaches it. *)
Theorem openCoreCppFiles_sealed_dir workspaceDir w name before dir err after files :
  let w0 := Info ("Opening core C++ files in workspace: " +:+ workspaceDir) w in
  clangd.Tree workspaceDir w0
  = Go.FsDir name (Ok (before ++ Go.FsDir dir (Err err) :: after)) →
  skippedDir workspaceDir = false →
  walkEntries clangd.PathJoin clangd.collectCpp workspaceDir before [] = (None, files) →
  clangd.openCoreCppFiles workspaceDir w
  = (Some ("error walking workspace directory: " +:+ err), w0).
Proof.
  intros w0 Htree Hroot Hbefore. unfold clangd.openCoreCppFiles, Go.Walk. fold w0.
  rewrite Htree, walk_dir. unfold clangd.collectCpp at 1. simpl.
  unfold skippedDir in Hroot. cbv zeta in Hroot. rewrite Hroot.
  by rewrite walkEntries_app, Hbefore, walkEntries_cons, walk_sealed_dir.
Qed.

(** X18: openFiles counts the files it opens and never goes beyond
    [maxFilesToOpen], whatever [OpenFile] answers; a file that does not
    open is not counted. *)
Theorem openFiles_at_most_cap cppFiles w :
  (0 ≤ (clangd.openFiles cppFiles 0 w).1 ≤ clangd.maxFilesToOpen)%Z
  ∧ ((∀ filePath w0, filePath ∈ cppFiles → (OpenFile filePath w0).1 ≠ None) →
     (clangd.openFiles cppFiles 0 w).1 = 0%Z).
Proof.
  split; [apply openFiles_count; unfold clangd.maxFilesToOpen; lia|].
  revert w. induction cppFiles as [|filePath cppFiles IH]; intros w Hfail; [done|].
  simpl. pose proof (Hfail filePath w ltac:(left)) as Hsome.
  destruct (OpenFile filePath w) as [[err|] w1]; [|done].
  apply IH. intros p w0 Hp. apply Hfail. by right.
Qed.

Lemma openFiles_opens cppFiles fileCount w :
  (0 ≤ fileCount ≤ clangd.maxFilesToOpen)%Z →
  (∀ filePath w0, filePath ∈ cppFiles → (OpenFile filePath w0).1 = None) →
  clangd.openFiles cppFiles fileCount w
  = ((fileCount
      + Z.of_nat (length (take (Z.to_nat (clangd.maxFilesToOpen - fileCount)) cppFiles)))%Z,
     openAll (take (Z.to_nat (clangd.maxFilesToOpen - fileCount)) cppFiles) w).
Proof.
  revert fileCount w. induction cppFiles as [|filePath cppFiles IH];
    intros fileCount w Hcount Hopen.
  - rewrite take_nil. simpl. f_equal; lia.
  - simpl. case_decide as Hcap.
    + assert (fileCount = clangd.maxFilesToOpen) as -> by lia.
      rewrite Z.sub_diag. simpl. f_equal; lia.
    + pose proof (Hopen filePath w ltac:(left)) as Hnone.
      destruct (OpenFile filePath w) as [[err|] w1] eqn:E; [done|].
      rewrite IH; [|lia|by intros p w0 Hp; apply Hopen; right].
      assert (Z.to_nat (clangd.maxFilesToOpen - fileCount)
              = S (Z.to_nat (clangd.maxFilesToOpen - (fileCount + 1)))) as -> by lia.
      simpl. rewrite E. simpl. f_equal; lia.
Qed.

(** X19: when every collected file opens, the loop of openCoreCppFiles
    opens the first three files of the list, or all of them when there are
    fewer, in the order of the list and with the log entry of each, opens
    no other file, and counts the files it opened. *)
Theorem openFiles_all_open cppFiles w :
  (∀ filePath w0, filePath ∈ cppFiles → (OpenFile filePath w0).1 = None) →
  clangd.openFiles cppFiles 0 w
  = (Z.of_nat (length (take 3 cppFiles)), openAll (take 3 cppFiles) w)
  ∧ length (take 3 cppFiles) = length cppFiles `min` 3.
Proof.
  intros Hopen. split; [|rewrite length_take; lia].
  rewrite openFiles_opens; [done|unfold clangd.maxFilesToOpen; lia|done].
Qed.

End OpenCoreFacts.

(** ** The further properties on the example workspace *)

Section FurtherExamples.
Import fixture.

Lemma ReadDefinition_error_iff_witness :
  definition.ReadDefinition (H := host true) "down" (start "")
  = (("", Some "failed to fetch symbol: connection closed"),
     (Symbol "down" (start "")).2).
Proof.
  destruct (ReadDefinition_error_iff (H := host true) "down" (start "")) as [_ Herr].
  apply (Herr "failed to fetch symbol: connection closed"). vm_compute. reflexivity.
Defined.

Lemma ReadDefinition_skips_failed_definition_witness :
  ∃ kept1 kept2 w5,
    definition.ReadDefinition (H := host true) "run" (start "")
    = ((if decide (kept1 ++ kept2 = []) then "run" +:+ " not found"
        else String.concat "" (kept1 ++ kept2).*2, None), w5)
    ∧ kept1.*1 = [runMain; runUtil] ∧ kept2 = [].
Proof.
  eexists _, _, _. split.
  - eapply (ReadDefinition_skips_failed_definition (H := host true) "run" (start "")
              _ _ [runMain; runLocked; runner; runUtil] runStale []).
    + vm_compute. reflexivity.
    + reflexivity.
    + eapply resolves_keep; [vm_compute; reflexivity|].
      eapply resolves_skip; [vm_compute; reflexivity|].
      eapply resolves_skip; [vm_compute; reflexivity|].
      eapply resolves_keep; [vm_compute; reflexivity|].
      apply resolves_nil.
    + left. exact I.
    + vm_compute. reflexivity.
    + vm_compute. reflexivity.
    + apply resolves_nil.
  - split; reflexivity.
Defined.

Lemma ReadDefinition_percent_in_container_witness :
  let symbol := WorkspaceSymbol {| Name := "rate"; Kind := 13;
                                   ContainerName := "Load%%Stats";
                                   SymLocation := at_ "file:///ws/stats.cpp" 2 4 |} in
  (definition.definitionOf (H := host true) "rate" symbol (start "")).1
  = Some ("---" +:+ LF +:+ LF +:+
          "Symbol: rate" +:+ LF +:+
          "File: /ws/stats.cpp" +:+ LF +:+
          "Kind: Variable" +:+ LF +:+
          "Container Name: Load%Stats" +:+ LF +:+
          "Range: L3:C5 - L3:C8" +:+ LF +:+ LF +:+
          "3|void run();" +:+ LF).
Proof.
  intros symbol.
  set (w1 := record "didOpen /ws/stats.cpp" (record "DEBUG Found symbol: rate" (start ""))).
  assert (Hkind : noVerb (TableKindMap (Host := host true) (kindOf symbol)) = true)
    by (vm_compute; reflexivity).
  assert (Hopen : OpenFile (Path (Host := host true) (URI (GetLocation symbol)))
                    (Debug ("Found symbol: " +:+ GetName symbol) (start ""))
                  = (None, w1)) by (vm_compute; reflexivity).
  assert (Hdef : GetFullDefinition (Host := host true) (GetLocation symbol) w1
                 = (("void run();", at_ "file:///ws/stats.cpp" 2 4, None),
                    record "definition file:///ws/stats.cpp" w1))
    by (vm_compute; reflexivity).
  pose proof (ReadDefinition_percent_in_container (H := host true) "rate" symbol
                (start "") _ _ _ _ "Load" "Stats" I eq_refl eq_refl eq_refl
                Hkind Hopen Hdef) as Hblock.
  rewrite Hblock. vm_compute. reflexivity.
Defined.

Lemma TrimPrefix_spec_witness :
  Go.TrimPrefix "/ws/main.cpp" "file://" = "/ws/main.cpp"
  ∧ "file://" +:+ Go.TrimPrefix "file:///ws/main.cpp" "file://" = "file:///ws/main.cpp".
Proof.
  split.
  - apply (TrimPrefix_spec "/ws/main.cpp" "file://"). vm_compute. reflexivity.
  - apply (TrimPrefix_spec "file:///ws/main.cpp" "file://"). vm_compute. reflexivity.
Defined.

Lemma FindReferences_no_references_witness :
  (references.FindReferences (H := host true) "step" (start "")).1
  = ("No references found for symbol: " +:+ "step", None).
Proof.
  eapply (FindReferences_no_references (H := host true) "step" (start ""));
    [vm_compute; reflexivity|reflexivity|].
  intros symbol w2 ->%list_elem_of_singleton. right. vm_compute. reflexivity.
Defined.

Lemma FindReferences_report_shape_witness :
  let w1 := record "workspace/symbol main" (start "") in
  let first := references.allReferencesOf (H := host false) 5 [runMain] [] w1 in
  let out := (references.FindReferences (H := host false) "main" (start "")).1.1 in
  ∃ collected added,
    first.1 = Ok collected
    ∧ length collected = 3
    ∧ out = (if decide (collected ++ added = [])
             then "No references found for symbol: " +:+ "main"
             else Go.Join (collected ++ added) LF).
Proof.
  intros w1 first out.
  assert (∃ collected, first = (Ok collected, first.2) ∧ length collected = 3)
    as (collected & Hfirst & Hlen).
  { eexists. split; vm_compute; reflexivity. }
  destruct (FindReferences_report_shape (H := host false) "main" (start "")
              {| Results := Ok [runMain; stepMethod] |} w1 [runMain] [stepMethod]
              collected first.2 out
              (references.FindReferences (H := host false) "main" (start "")).2)
    as (added & _ & Hout & _).
  - vm_compute. reflexivity.
  - reflexivity.
  - assert (references.contextLinesOf
              (Getenv (Host := host false) "LSP_CONTEXT_LINES" (start "")) = 5%Z)
      as -> by (vm_compute; reflexivity).
    exact Hfirst.
  - vm_compute. reflexivity.
  - exists collected, added. split; [by rewrite Hfirst|]. split; [exact Hlen|exact Hout].
Defined.

Lemma allReferencesOf_locations_only_witness :
  references.allReferencesOf (H := host true) 5 [runUtil] [] (start "")
  = references.allReferencesOf (H := host true) 5
      [SymbolInformation {| Name := "walk"; Kind := 12; ContainerName := "Engine";
                            SymLocation := at_ "file:///ws/util.cpp" 1 0 |}]
      [] (start "").
Proof.
  apply (allReferencesOf_locations_only (H := host true)). reflexivity.
Defined.

Lemma fileBlock_shape_witness :
  let fileRefs := filter (λ ref, URI ref = "file:///ws/util.cpp") mainRefs in
  1 ≤ length fileRefs
  ∧ ∃ block,
      (references.fileBlock (H := host true) 1 (references.groupByFile mainRefs)
         "file:///ws/util.cpp" (start "")).1 = Some block
      ∧ Go.HasPrefix block
          ("---" +:+ LF +:+ LF +:+ "/ws/util.cpp" +:+ LF +:+
           "References in File: 2" +:+ LF +:+ "At: L2:C1, L8:C5" +:+ LF +:+ LF) = true.
Proof.
  intros fileRefs.
  edestruct (fileBlock_shape (H := host true) 1 mainRefs "file:///ws/util.cpp"
               (start "")) as [Hlen Hblock].
  - assert (references.sortedURIs (references.groupByFile mainRefs)
            = ["file:///ws/gone.cpp"; "file:///ws/main.cpp"; "file:///ws/util.cpp"])
      as -> by (vm_compute; reflexivity).
    by do 2 right; left.
  - vm_compute. reflexivity.
  - vm_compute. reflexivity.
  - split; [exact Hlen|]. eexists. split; [by rewrite Hblock|].
    vm_compute. reflexivity.
Defined.

Lemma sortedURIs_distinct_sorted_witness :
  references.sortStrings (reverse (references.keys (references.groupByFile mainRefs)))
  = references.sortStrings (remove_dups (URI <$> mainRefs)).
Proof.
  apply (sortedURIs_distinct_sorted mainRefs). apply reverse_Permutation.
Defined.

Lemma walk_never_nil_info_witness :
  Go.walk (clangd.PathJoin (FileSystem := files)) clangd.collectCpp "/ws" workspace []
  = Go.walk (clangd.PathJoin (FileSystem := files))
      (λ path info err cppFiles,
         match info, err with
         | None, None => (Some Go.SkipAll, [])
         | _, _ => clangd.collectCpp path info err cppFiles
         end) "/ws" workspace [].
Proof.
  apply walk_never_nil_info. intros p info err s' [[i ->]|[e ->]]; [done|].
  by destruct info.
Defined.

Lemma walk_prunes_skipped_witness :
  Go.walk (clangd.PathJoin (FileSystem := files)) clangd.collectCpp "/ws"
    (Go.FsDir "ws" (Ok ([Go.FsFile "a.cpp"]
                        ++ Go.FsDir ".git" (Ok [Go.FsFile "hooks.cc"])
                           :: [Go.FsFile "b.cc"]))) []
  = Go.walk (clangd.PathJoin (FileSystem := files)) clangd.collectCpp "/ws"
      (Go.FsDir "ws" (Ok ([Go.FsFile "a.cpp"] ++ [Go.FsFile "b.cc"]))) [].
Proof. apply walk_prunes_skipped. vm_compute. reflexivity. Defined.

Lemma openCoreCppFiles_skipped_root_witness :
  clangd.openCoreCppFiles (F := anywhere) "." (start "")
  = (None,
     Info ("Opened " +:+ pretty 0%Z +:+ " core C++ files")
       (Info ("Opening core C++ files in workspace: " +:+ ".") (start ""))).
Proof.
  eapply (openCoreCppFiles_skipped_root (F := anywhere) "." (start ""));
    [reflexivity|vm_compute; reflexivity].
Defined.

Lemma openCoreCppFiles_error_witness :
  (clangd.openCoreCppFiles "/sealed" (start "")).2
  = Info ("Opening core C++ files in workspace: " +:+ "/sealed") (start "").
Proof.
  eapply (openCoreCppFiles_error "/sealed" (start "")
            "error walking workspace directory: permission denied").
  vm_compute. reflexivity.
Defined.

Lemma openCoreCppFiles_sealed_dir_witness :
  clangd.openCoreCppFiles "/sealed" (start "")
  = (Some ("error walking workspace directory: " +:+ "permission denied"),
     Info ("Opening core C++ files in workspace: " +:+ "/sealed") (start "")).
Proof.
  eapply (openCoreCppFiles_sealed_dir "/sealed" (start "") "sealed"
            [Go.FsFile "a.cpp"] "vault" "permission denied" []);
    vm_compute; reflexivity.
Defined.

Lemma openFiles_at_most_cap_witness :
  (clangd.openFiles ["/ws/locked.cpp"; "/ws/locked.cpp"] 0 (start "")).1 = 0%Z.
Proof.
  apply (openFiles_at_most_cap ["/ws/locked.cpp"; "/ws/locked.cpp"] (start "")).
  intros filePath w0 Hin.
  assert (filePath = "/ws/locked.cpp") as ->.
  { repeat (apply elem_of_cons in Hin as [->|Hin]; [done|]). by apply elem_of_nil in Hin. }
  vm_compute. discriminate.
Defined.

Lemma openFiles_all_open_witness :
  clangd.openFiles ["/ws/main.cpp"; "/ws/src/a.cc"; "/ws/src/c.cxx"; "/ws/src/d.cpp"]
    0 (start "")
  = (3%Z,
     {| lspContextLines := "";
        journal := ["didOpen /ws/main.cpp"; "DEBUG Opened core C++ file: /ws/main.cpp";
                    "didOpen /ws/src/a.cc"; "DEBUG Opened core C++ file: /ws/src/a.cc";
                    "didOpen /ws/src/c.cxx";
                    "DEBUG Opened core C++ file: /ws/src/c.cxx"] |}).
Proof.
  destruct (openFiles_all_open
              ["/ws/main.cpp"; "/ws/src/a.cc"; "/ws/src/c.cxx"; "/ws/src/d.cpp"]
              (start "")) as [Hopened _].
  - intros filePath w0 Hin.
    repeat (apply elem_of_cons in Hin as [->|Hin]; [vm_compute; reflexivity|]).
    by apply elem_of_nil in Hin.
  - rewrite Hopened. vm_compute. reflexivity.
Defined.

End FurtherExamples.
